(** * Books API gateway: authentication and authorization middleware

    A shallow embedding of the two middleware functions of [server.js]
    ([jwtAuth] and [requireRole]), of the route table that wires them in
    front of every operation handler, and of the JavaScript primitives
    they call.  The same two functions and the same nine routes appear in
    the Swagger-documented variant of the server; one model covers both.

    Strings are sequences of code units below 256, which is how Node
    decodes the bytes of a header value. *)

From Stdlib Require Import ZArith String Ascii List Bool DecimalString Lia.
From Stdlib Require Import DecimalPos DecimalZ.
Import ListNotations.
Open Scope string_scope.

(* ================================================================== *)
(** ** JavaScript values, abrupt completion and the built-ins used *)

Module JS.

(** An exception object: the constructor's name and its message. *)
Record JSError := Error { name : string; message : string }.

(** The result of evaluating a JavaScript expression: a value, or a
    thrown exception. *)
Inductive Completion (A : Type) : Type :=
| Normal (a : A)
| Throw (e : JSError).
Arguments Normal {A} a.
Arguments Throw {A} e.

Definition bind {A B} (c : Completion A) (k : A -> Completion B)
  : Completion B :=
  match c with
  | Normal a => k a
  | Throw e => Throw e
  end.

(** [try { body } catch { handler }] with a [catch] that ignores the
    exception. *)
Definition try_catch {A} (body : Completion A) (handler : A) : A :=
  match body with
  | Normal a => a
  | Throw _ => handler
  end.

(** The values a decoded token payload can hold: what [JSON.parse]
    produces, and [undefined] for a property that is not there.
    [JSNumber n] is an integer-valued number of magnitude below 10^21,
    the range in which a number prints as plain decimal digits. *)
#[warnings="-register-all"]
Inductive JSValue : Type :=
| JSUndefined
| JSNull
| JSBool (b : bool)
| JSNumber (n : Z)
| JSString (s : string)
| JSArray (elements : list JSValue)
| JSObject (properties : list (string * JSValue)).

Definition Properties := list (string * JSValue).

(** [obj[key]] on a plain object: the own property, else [undefined]. *)
Fixpoint get (key : string) (props : Properties) : JSValue :=
  match props with
  | [] => JSUndefined
  | (k, v) :: rest => if String.eqb k key then v else get key rest
  end.

Fixpoint hasOwnProperty (key : string) (props : Properties) : bool :=
  match props with
  | [] => false
  | (k, _) :: rest => String.eqb k key || hasOwnProperty key rest
  end.

Definition Number_toString (n : Z) : string :=
  NilZero.string_of_int (Z.to_int n).

Definition cannot_convert : JSError :=
  Error "TypeError" "Cannot convert object to primitive value".

(** [String(v)].  An array prints its elements joined by commas, with
    [null] and [undefined] elements printed as nothing.  A plain object
    prints through [Object.prototype.toString] unless it carries an own
    [toString] property: a parsed value is never callable, so the own
    property hides the inherited method, [valueOf] gives back the object
    itself, and the conversion throws a [TypeError]. *)
Fixpoint String_ (v : JSValue) : Completion string :=
  match v with
  | JSUndefined => Normal "undefined"
  | JSNull => Normal "null"
  | JSBool b => Normal (if b then "true" else "false")
  | JSNumber n => Normal (Number_toString n)
  | JSString s => Normal s
  | JSArray elements =>
      (fix join (l : list JSValue) : Completion string :=
         match l with
         | [] => Normal ""
         | x :: rest =>
             bind (match x with
                   | JSUndefined | JSNull => Normal ""
                   | _ => String_ x
                   end)
                  (fun sx =>
                     match rest with
                     | [] => Normal sx
                     | _ :: _ =>
                         bind (join rest)
                              (fun sr => Normal (sx ++ "," ++ sr))
                     end)
         end) elements
  | JSObject properties =>
      if hasOwnProperty "toString" properties
      then Throw cannot_convert
      else Normal "[object Object]"
  end.

(** [SameValueZero] between a value held by the server and a value
    freshly parsed from a token.  Primitives compare by content; a
    parsed array or object is a new reference and equals nothing that
    existed before it. *)
Definition SameValueZero (x y : JSValue) : bool :=
  match x, y with
  | JSUndefined, JSUndefined => true
  | JSNull, JSNull => true
  | JSBool a, JSBool b => Bool.eqb a b
  | JSNumber a, JSNumber b => Z.eqb a b
  | JSString a, JSString b => String.eqb a b
  | _, _ => false
  end.

(** [array.includes(v)] *)
Definition includes (array : list JSValue) (v : JSValue) : bool :=
  existsb (fun x => SameValueZero x v) array.

(** [s.startsWith(prefix)] *)
Definition startsWith (s prefix : string) : bool := String.prefix prefix s.

(** [s.slice(start)] for a non-negative [start]. *)
Fixpoint slice (start : nat) (s : string) : string :=
  match start, s with
  | O, _ => s
  | S _, EmptyString => EmptyString
  | S n, String _ s' => slice n s'
  end.

(** White space and line terminators among the code units below 256:
    TAB, LF, VT, FF, CR, SPACE and NO-BREAK SPACE. *)
Definition isWhiteSpace (c : ascii) : bool :=
  let n := nat_of_ascii c in
  ((9 <=? n) && (n <=? 13) || (n =? 32) || (n =? 160))%nat.

Fixpoint trimStart (s : string) : string :=
  match s with
  | EmptyString => EmptyString
  | String c s' => if isWhiteSpace c then trimStart s' else s
  end.

Fixpoint trimEnd (s : string) : string :=
  match s with
  | EmptyString => EmptyString
  | String c s' =>
      match trimEnd s' with
      | EmptyString => if isWhiteSpace c then EmptyString
                       else String c EmptyString
      | t => String c t
      end
  end.

(** [s.trim()] *)
Definition trim (s : string) : string := trimEnd (trimStart s).

(** [a || b] on strings that may be [undefined]: the empty string is
    falsy as well. *)
Definition or_string (a : option string) (b : string) : string :=
  match a with
  | Some s => if String.eqb s "" then b else s
  | None => b
  end.

End JS.

Import JS.

(* ================================================================== *)
(** ** Requests, responses and Express's middleware chain *)

(** The identity [jwtAuth] attaches to the request as [req.user]. *)
Record User := { userId : string; role : JSValue }.

(** The parts of the request the middleware reads and writes:
    [req.headers] (Node stores header names in lower case) and
    [req.user], which is [undefined] until [jwtAuth] assigns it. *)
Record Request := {
  headers : list (string * string);
  user : option User
}.

(** [table[name]] on a table of strings, [None] for [undefined]. *)
Fixpoint lookup (name : string) (table : list (string * string))
  : option string :=
  match table with
  | [] => None
  | (k, v) :: rest => if String.eqb k name then Some v else lookup name rest
  end.

(** [req.user = u] *)
Definition set_user (u : User) (req : Request) : Request :=
  {| headers := headers req; user := Some u |}.

Record Response := {
  statusCode : Z;
  body : option JSValue;
  finished : bool
}.

(** The response object as Express hands it to the first middleware. *)
Definition new_response : Response :=
  {| statusCode := 200; body := None; finished := false |}.

(** [res.status(code)] *)
Definition status (code : Z) (res : Response) : Response :=
  {| statusCode := code; body := body res; finished := finished res |}.

(** [res.json(obj)]: writes the body and ends the response. *)
Definition json (obj : JSValue) (res : Response) : Response :=
  {| statusCode := statusCode res; body := Some obj; finished := true |}.

(** What a middleware did: called [next()], or ended the response. *)
Inductive Outcome : Type :=
| Next (req : Request) (res : Response)
| Responded (req : Request) (res : Response).

Definition Middleware := Request -> Response -> Completion Outcome.

Inductive Stage : Type := StageJwtAuth | StageRequireRole | StageHandler.

(** One request through a route: the stages that ran, each with the
    request as it received it, and the response that went out. *)
Record Run := {
  trace : list (Stage * Request);
  response : Response
}.

(** Express calls the functions of a route in order.  A function that
    does not call [next()] ends the chain; one that throws hands over to
    the error handler, which answers 500; a chain that runs out without
    an answer ends in 404. *)
Fixpoint dispatch (stack : list (Stage * Middleware))
  (req : Request) (res : Response) : Run :=
  match stack with
  | [] => {| trace := []; response := status 404 res |}
  | (stage, mw) :: rest =>
      match mw req res with
      | Normal (Next req' res') =>
          let r := dispatch rest req' res' in
          {| trace := (stage, req) :: trace r; response := response r |}
      | Normal (Responded _ res') =>
          {| trace := [(stage, req)]; response := res' |}
      | Throw _ =>
          {| trace := [(stage, req)]; response := status 500 res |}
      end
  end.

(** The [error] and [message] fields of a JSON error body. *)
Definition error_of (res : Response) : JSValue :=
  match body res with
  | Some (JSObject props) => get "error" props
  | _ => JSUndefined
  end.

Definition message_of (res : Response) : JSValue :=
  match body res with
  | Some (JSObject props) => get "message" props
  | _ => JSUndefined
  end.

(** Did the stage run at all? *)
Definition stage_eqb (a b : Stage) : bool :=
  match a, b with
  | StageJwtAuth, StageJwtAuth
  | StageRequireRole, StageRequireRole
  | StageHandler, StageHandler => true
  | _, _ => false
  end.

Definition ran (s : Stage) (r : Run) : bool :=
  existsb (fun e => stage_eqb (fst e) s) (trace r).

(** Did the middleware let the request through? *)
Definition passed (c : Completion Outcome) : bool :=
  match c with
  | Normal (Next _ _) => true
  | _ => false
  end.

(* ================================================================== *)
(** ** server.js *)

Definition ProcessEnv := list (string * string).

(** The constants [server.js] binds when the module is loaded. *)
Record Constants := { JWT_SECRET : string }.

(** [const JWT_SECRET = process.env.JWT_SECRET || '...'] *)
Definition load (env : ProcessEnv) : Constants :=
  {| JWT_SECRET :=
       or_string (lookup "JWT_SECRET" env) "your-secret-key-change-this" |}.

Definition missing_token_body : JSValue :=
  JSObject
    [("error", JSString "TidakTerautentikasi");
     ("message",
      JSString
        "Token Bearer tidak ditemukan. Tambahkan Authorization: Bearer <token>.")].

Definition invalid_token_body : JSValue :=
  JSObject
    [("error", JSString "TidakTerautentikasi");
     ("message", JSString "Token tidak valid atau sudah kedaluwarsa.")].

Definition forbidden_body : JSValue :=
  JSObject
    [("error", JSString "AksesDitolak");
     ("message",
      JSString "Anda tidak memiliki izin untuk mengakses endpoint ini.")].

(** A route as [app.METHOD(path, jwtAuth, requireRole(...), handler)]
    declares it. *)
Record Route := {
  method : string;
  path : string;
  allowedRoles : list JSValue
}.

Definition member_or_librarian : list JSValue :=
  [JSString "member"; JSString "librarian"].

Definition librarian_only : list JSValue := [JSString "librarian"].

Definition routes : list Route :=
  [ {| method := "GET"; path := "/api/books";
       allowedRoles := member_or_librarian |};
    {| method := "GET"; path := "/api/books/genres/:genres";
       allowedRoles := member_or_librarian |};
    {| method := "GET"; path := "/api/books/year/:year";
       allowedRoles := member_or_librarian |};
    {| method := "GET"; path := "/api/books/author/:author";
       allowedRoles := member_or_librarian |};
    {| method := "GET"; path := "/api/books/:id";
       allowedRoles := member_or_librarian |};
    {| method := "POST"; path := "/api/books";
       allowedRoles := librarian_only |};
    {| method := "PUT"; path := "/api/books/:id";
       allowedRoles := librarian_only |};
    {| method := "DELETE"; path := "/api/books/:id";
       allowedRoles := librarian_only |};
    {| method := "GET"; path := "/api/stats";
       allowedRoles := member_or_librarian |} ].

Section Server.

(** [jwt.verify(token, secret)] of the jsonwebtoken package, at the
    instant the clock shows: the decoded payload of a token that is well
    formed, signed with [secret] and not expired, or the exception the
    package throws.  Only named properties of the payload are read, so a
    payload that is not an object stands as the empty property list. *)
Variable jwt_verify : Z -> string -> string -> Completion Properties.

(** What the operation handler of a route answers.  The handlers catch
    their own failures and always end the response. *)
Variable operation : Route -> Request -> Response -> Response.

Variable K : Constants.

(** [next()] is called inside the [try] block; Express runs each later
    function of the route inside a [try] of its own, so no exception of
    theirs comes back through the call, and the [catch] only ever sees
    what [jwt.verify] and [String] throw. *)
Definition jwtAuth (now : Z) : Middleware := fun req res =>
  let header := or_string (lookup "authorization" (headers req)) "" in
  let prefix := "Bearer " in
  if negb (startsWith header prefix) then
    Normal (Responded req (json missing_token_body (status 401 res)))
  else
    let token := trim (slice (String.length prefix) header) in
    Normal
      (try_catch
         (bind (jwt_verify now token (JWT_SECRET K)) (fun decoded =>
          bind (String_ (get "userId" decoded)) (fun uid =>
          Normal
            (Next (set_user {| userId := uid; role := get "role" decoded |}
                            req)
                  res))))
         (Responded req (json invalid_token_body (status 401 res)))).

Definition requireRole (allowedRoles : list JSValue) : Middleware :=
  fun req res =>
    match user req with
    | None => Normal (Responded req (json forbidden_body (status 403 res)))
    | Some u =>
        if negb (includes allowedRoles (role u)) then
          Normal (Responded req (json forbidden_body (status 403 res)))
        else Normal (Next req res)
    end.

Definition handler (r : Route) : Middleware := fun req res =>
  Normal (Responded req (operation r req res)).

Definition stack (now : Z) (r : Route) : list (Stage * Middleware) :=
  [ (StageJwtAuth, jwtAuth now);
    (StageRequireRole, requireRole (allowedRoles r));
    (StageHandler, handler r) ].

(** One request to route [r], arriving at instant [now]. *)
Definition handle (now : Z) (r : Route) (req : Request) : Run :=
  dispatch (stack now r) req new_response.

End Server.

(** A request as it reaches the server, and the process serving a
    sequence of them with the constants bound once at load time. *)
Record Incoming := { at_time : Z; to_route : Route; request : Request }.

Definition serve
  (jwt_verify : Z -> string -> string -> Completion Properties)
  (operation : Route -> Request -> Response -> Response)
  (env : ProcessEnv) (incoming : list Incoming) : list Run :=
  let K := load env in
  map (fun i =>
         handle jwt_verify operation K (at_time i) (to_route i) (request i))
      incoming.

(** The header the middleware works on: [req.headers["authorization"] || ""]. *)
Definition credential (req : Request) : string :=
  or_string (lookup "authorization" (headers req)) "".

(** The answer to a request without a usable bearer credential, and the
    answer to one whose token does not verify. *)
Definition unauthenticated_missing (res : Response) : Response :=
  json missing_token_body (status 401 res).

Definition unauthenticated_invalid (res : Response) : Response :=
  json invalid_token_body (status 401 res).

Definition forbidden (res : Response) : Response :=
  json forbidden_body (status 403 res).

(** A string of white space only. *)
Fixpoint blank (s : string) : bool :=
  match s with
  | EmptyString => true
  | String c s' => isWhiteSpace c && blank s'
  end.

(** Values that are not objects. *)
Definition primitive (v : JSValue) : bool :=
  match v with
  | JSArray _ | JSObject _ => false
  | _ => true
  end.

(* ================================================================== *)
(** ** A token issuer and verifier to run the scenarios with *)

Module Fixture.

Record Issued := {
  text : string;
  signed_with : string;
  claims : Properties
}.

Definition deployed_secret : string := "your-secret-key-change-this".

Definition issued : list Issued :=
  [ {| text := "token-A"; signed_with := deployed_secret;
       claims := [("userId", JSNumber 7); ("role", JSString "member");
                  ("exp", JSNumber 2000)] |};
    {| text := "token-admin"; signed_with := deployed_secret;
       claims := [("userId", JSString "u1"); ("role", JSString "admin");
                  ("exp", JSNumber 2000)] |};
    {| text := "token-no-role"; signed_with := deployed_secret;
       claims := [("userId", JSNumber 3); ("exp", JSNumber 2000)] |};
    {| text := "token-no-userId"; signed_with := deployed_secret;
       claims := [("role", JSString "librarian"); ("exp", JSNumber 2000)] |};
    {| text := "token-object-userId"; signed_with := deployed_secret;
       claims := [("userId", JSObject [("toString", JSNull)]);
                  ("role", JSString "member"); ("exp", JSNumber 2000)] |};
    {| text := "token-admin-object-userId"; signed_with := deployed_secret;
       claims := [("userId", JSObject [("toString", JSNull)]);
                  ("role", JSString "admin"); ("exp", JSNumber 2000)] |};
    {| text := "token-forged"; signed_with := "some-other-secret";
       claims := [("userId", JSNumber 7); ("role", JSString "librarian");
                  ("exp", JSNumber 2000)] |} ].

Definition jwt_verify (now : Z) (token secret : string)
  : Completion Properties :=
  if String.eqb token "" then
    Throw (Error "JsonWebTokenError" "jwt must be provided")
  else
    match find (fun i => String.eqb (text i) token) issued with
    | None => Throw (Error "JsonWebTokenError" "jwt malformed")
    | Some i =>
        if negb (String.eqb (signed_with i) secret) then
          Throw (Error "JsonWebTokenError" "invalid signature")
        else
          match get "exp" (claims i) with
          | JSNumber exp =>
              if (exp <=? now)%Z then
                Throw (Error "TokenExpiredError" "jwt expired")
              else Normal (claims i)
          | _ => Normal (claims i)
          end
    end.

Definition operation (r : Route) (req : Request) (res : Response)
  : Response :=
  json (JSObject [("success", JSBool true)]) res.

Definition K : Constants := load [].

Definition bearer (token : string) : Request :=
  {| headers := [("authorization", "Bearer " ++ token)]; user := None |}.

(** A request whose authorization header is [h] as it stands. *)
Definition with_header (h : string) : Request :=
  {| headers := [("authorization", h)]; user := None |}.

Definition no_header : Request := {| headers := []; user := None |}.

Definition TAB : string := String (ascii_of_nat 9) EmptyString.

Definition NBSP : string := String (ascii_of_nat 160) EmptyString.

(** The request of scenario A once [jwtAuth] has attached the identity. *)
Definition identity_A : Request :=
  set_user {| userId := "7"; role := JSString "member" |} (bearer "token-A").

(** The same credential on a request object that already carries an
    identity. *)
Definition stale_A : Request :=
  {| headers := headers (bearer "token-A");
     user := Some {| userId := "stale"; role := JSNull |} |}.

Definition get_books : Route :=
  {| method := "GET"; path := "/api/books";
     allowedRoles := member_or_librarian |}.

Definition post_books : Route :=
  {| method := "POST"; path := "/api/books";
     allowedRoles := librarian_only |}.

End Fixture.

(* ================================================================== *)
(** ** Numbers, [parseInt], [Math.min] and truthiness *)

Module JSNum.

(** A number as the handlers meet it: an integer, [NaN], or one of the
    infinities.  [Int 0] stands for both zeros. *)
Inductive Number : Type :=
| Int (z : Z)
| NaN
| Infinity
| NegInfinity.

(** The value of a character as a digit in [radix], if it is one. *)
Definition digit (radix : Z) (c : ascii) : option Z :=
  let n := Z.of_nat (nat_of_ascii c) in
  let v := if ((48 <=? n) && (n <=? 57))%Z then Some (n - 48)%Z
           else if ((97 <=? n) && (n <=? 122))%Z then Some (n - 87)%Z
           else if ((65 <=? n) && (n <=? 90))%Z then Some (n - 55)%Z
           else None in
  match v with
  | Some d => if (d <? radix)%Z then Some d else None
  | None => None
  end.

(** The longest run of digits at the front of [s], read from the left;
    [acc] is what has been read so far, [None] when nothing has. *)
Fixpoint digits (radix : Z) (s : string) (acc : option Z) : option Z :=
  match s with
  | EmptyString => acc
  | String c s' =>
      match digit radix c with
      | Some d =>
          digits radix s'
                 (Some (match acc with
                        | Some a => (a * radix + d)%Z
                        | None => d
                        end))
      | None => acc
      end
  end.

(** Does the string begin with [0x] or [0X]? *)
Definition hex_prefix (s : string) : bool :=
  match s with
  | String c0 (String c1 _) =>
      Ascii.eqb c0 "0" && (Ascii.eqb c1 "x" || Ascii.eqb c1 "X")
  | _ => false
  end.

(** [parseInt(s)] with no radix given: leading white space is skipped, a
    sign is read, [0x] or [0X] switches to base sixteen, and the digits
    that follow are read as far as they go; [NaN] when there are none.
    The result is the integer read, which is the number JavaScript
    returns as long as it is below 2^53. *)
Definition parseInt (s : string) : Number :=
  let S := trimStart s in
  let negative :=
    match S with
    | String c _ => Ascii.eqb c "-"
    | EmptyString => false
    end in
  let S1 :=
    match S with
    | String c r => if Ascii.eqb c "-" || Ascii.eqb c "+" then r else S
    | EmptyString => S
    end in
  let read :=
    if hex_prefix S1 then digits 16 (slice 2 S1) None
    else digits 10 S1 None in
  match read with
  | Some m => Int (if negative then (- m)%Z else m)
  | None => NaN
  end.

(** [Math.min(...l)] and [Math.max(...l)] on finite arguments. *)
Definition Math_min (l : list Z) : Number :=
  match l with
  | [] => Infinity
  | x :: rest => Int (fold_left Z.min rest x)
  end.

Definition Math_max (l : list Z) : Number :=
  match l with
  | [] => NegInfinity
  | x :: rest => Int (fold_left Z.max rest x)
  end.

(** A number as [JSON.stringify] writes it into a response body: one
    that is not finite is written as [null]. *)
Definition JSON_number (n : Number) : JSValue :=
  match n with
  | Int z => JSNumber z
  | _ => JSNull
  end.

(** [!v] is [negb (truthy v)]. *)
Definition truthy (v : JSValue) : bool :=
  match v with
  | JSUndefined | JSNull => false
  | JSBool b => b
  | JSNumber n => negb (Z.eqb n 0)
  | JSString s => negb (String.eqb s "")
  | JSArray _ | JSObject _ => true
  end.

(** A string that may be [undefined], inside a template literal or as
    the argument of [parseInt]. *)
Definition ToString_param (p : option string) : string :=
  match p with
  | Some s => s
  | None => "undefined"
  end.

End JSNum.

Import JSNum.

(* ================================================================== *)
(** ** The operation handlers of server.js *)

(** What a Supabase query gives back when it fails. *)
Module Postgrest.

Record Error := { code : string; message : string }.

End Postgrest.

(** [{ data, error }]: one of the two is [null]. *)
Inductive QueryResult (A : Type) : Type :=
| Data (data : A)
| Failed (error : Postgrest.Error).
Arguments Data {A} data.
Arguments Failed {A} error.

(** The queries the handlers send to the [books] table. *)
Inductive Query : Type :=
| SelectAll
| SelectIlike (column pattern : string)
| SelectYear (year : Number)
| SelectById (id : option string)
| InsertBook (title genres authors year : JSValue)
| UpdateBook (id : option string) (title genres authors year : JSValue)
| DeleteBook (id : option string)
| SelectYears.

(** The Supabase client: the rows of a query that lists, the one row of
    a query that ends in [.single()], and the [year] column, an integer
    or [null] in each row, for the statistics. *)
Record Supabase := {
  rows : Query -> QueryResult (list JSValue);
  single : Query -> QueryResult JSValue;
  years : Query -> QueryResult (list (option Z))
}.

(** What a handler reads besides the identity: [req.params] and
    [req.body].  [express.json()] leaves in [req.body] the object it
    parsed, taken here by its own properties; for a request without a
    JSON body it leaves an empty object or, in Express 5, nothing,
    [None] standing for [undefined].  A parameter is a string of code
    units below 256, like every string here. *)
Record Content := {
  params : list (string * string);
  req_body : option Properties
}.

(** [catch (error) { res.status(500).json({ error: error.message }) }]
    on an exception thrown by the language. *)
Definition thrown (e : JSError) (res : Response) : Response :=
  json (JSObject [("error", JSString (message e))]) (status 500 res).

(** What destructuring [undefined] throws. *)
Definition undefined_body : JSError :=
  Error "TypeError"
        "Cannot destructure property 'title' of 'req.body' as it is undefined.".

(** What a call with more arguments than the engine takes throws. *)
Definition too_many_arguments : JSError :=
  Error "RangeError" "Maximum call stack size exceeded".

Definition server_error (e : Postgrest.Error) (res : Response) : Response :=
  json (JSObject [("error", JSString (Postgrest.message e))])
       (status 500 res).

Definition not_found (res : Response) : Response :=
  json (JSObject [("error", JSString "Book not found")]) (status 404 res).

Definition fields_required (res : Response) : Response :=
  json (JSObject
          [("error",
            JSString "All fields are required: title, genres, authors, year")])
       (status 400 res).

(** [throw error], unless the error says that no row matched. *)
Definition row_error (e : Postgrest.Error) (res : Response) : Response :=
  if String.eqb (Postgrest.code e) "PGRST116" then not_found res
  else server_error e res.

(** [!title || !genres || !authors || !year] *)
Definition field_missing (b : Properties) : bool :=
  negb (truthy (get "title" b)) || negb (truthy (get "genres" b))
  || negb (truthy (get "authors" b)) || negb (truthy (get "year" b)).

(** [ToNumber] of a [year] column value: [null] counts as zero. *)
Definition ToNumber_year (y : option Z) : Z :=
  match y with
  | Some n => n
  | None => 0%Z
  end.

Section Handlers.

Variable supabase : Supabase.

(** The most arguments the engine takes in one call. *)
Variable max_arguments : nat.

(** [f(...l)]: the elements of [l] become the arguments of a call. *)
Definition spread (l : list Z) : Completion (list Z) :=
  if (max_arguments <? List.length l)%nat then Throw too_many_arguments
  else Normal l.

(** The answer of the four handlers that list books. *)
Definition list_answer (q : Query) (res : Response) : Response :=
  match rows supabase q with
  | Failed e => server_error e res
  | Data data =>
      json (JSObject
              [("success", JSBool true);
               ("count", JSNumber (Z.of_nat (List.length data)));
               ("data", JSArray data)])
           res
  end.

Definition get_all_books (c : Content) (res : Response) : Response :=
  list_answer SelectAll res.

Definition get_books_by_genres (c : Content) (res : Response) : Response :=
  list_answer
    (SelectIlike "genres"
       ("%" ++ ToString_param (lookup "genres" (params c)) ++ "%"))
    res.

Definition get_books_by_year (c : Content) (res : Response) : Response :=
  list_answer
    (SelectYear (parseInt (ToString_param (lookup "year" (params c)))))
    res.

Definition get_books_by_author (c : Content) (res : Response) : Response :=
  list_answer
    (SelectIlike "authors"
       ("%" ++ ToString_param (lookup "author" (params c)) ++ "%"))
    res.

Definition get_book (c : Content) (res : Response) : Response :=
  match single supabase (SelectById (lookup "id" (params c))) with
  | Failed e => row_error e res
  | Data data =>
      json (JSObject [("success", JSBool true); ("data", data)]) res
  end.

Definition create_book (c : Content) (res : Response) : Response :=
  match req_body c with
  | None => thrown undefined_body res
  | Some b =>
      if field_missing b then fields_required res
      else
        match single supabase
                (InsertBook (get "title" b) (get "genres" b)
                            (get "authors" b) (get "year" b)) with
        | Failed e => server_error e res
        | Data data =>
            json (JSObject
                    [("success", JSBool true);
                     ("message", JSString "Book created successfully");
                     ("data", data)])
                 (status 201 res)
        end
  end.

Definition update_book (c : Content) (res : Response) : Response :=
  match req_body c with
  | None => thrown undefined_body res
  | Some b =>
      if field_missing b then fields_required res
      else
        match single supabase
                (UpdateBook (lookup "id" (params c))
                            (get "title" b) (get "genres" b)
                            (get "authors" b) (get "year" b)) with
        | Failed e => row_error e res
        | Data data =>
            json (JSObject
                    [("success", JSBool true);
                     ("message", JSString "Book updated successfully");
                     ("data", data)])
                 res
        end
  end.

Definition delete_book (c : Content) (res : Response) : Response :=
  match single supabase (DeleteBook (lookup "id" (params c))) with
  | Failed e => row_error e res
  | Data _ =>
      json (JSObject
              [("success", JSBool true);
               ("message", JSString "Book deleted successfully")])
           res
  end.

Definition get_stats (c : Content) (res : Response) : Response :=
  match years supabase SelectYears with
  | Failed e => server_error e res
  | Data data =>
      let ys := map ToNumber_year data in
      match bind (spread ys) (fun least =>
            bind (spread ys) (fun greatest =>
            Normal (Math_min least, Math_max greatest))) with
      | Throw e => thrown e res
      | Normal (oldest, newest) =>
          json (JSObject
                  [("success", JSBool true);
                   ("data",
                    JSObject
                      [("totalBooks",
                        JSNumber (Z.of_nat (List.length data)));
                       ("oldestYear", JSON_number oldest);
                       ("newestYear", JSON_number newest)])])
               res
      end
  end.

(** The handler each [app.METHOD(path, ...)] call registers. *)
Definition registered
  : list (string * string * (Content -> Response -> Response)) :=
  [ ("GET", "/api/books", get_all_books);
    ("GET", "/api/books/genres/:genres", get_books_by_genres);
    ("GET", "/api/books/year/:year", get_books_by_year);
    ("GET", "/api/books/author/:author", get_books_by_author);
    ("GET", "/api/books/:id", get_book);
    ("POST", "/api/books", create_book);
    ("PUT", "/api/books/:id", update_book);
    ("DELETE", "/api/books/:id", delete_book);
    ("GET", "/api/stats", get_stats) ].

Fixpoint handler_of (m p : string)
  (table : list (string * string * (Content -> Response -> Response)))
  : option (Content -> Response -> Response) :=
  match table with
  | [] => None
  | (m', p', h) :: rest =>
      if String.eqb m' m && String.eqb p' p then Some h
      else handler_of m p rest
  end.

(** The operation behind a route, for a request with content [c]; a
    route nothing was registered for is left unanswered. *)
Definition books_operation (c : Content)
  : Route -> Request -> Response -> Response :=
  fun r _ res =>
    match handler_of (method r) (path r) registered with
    | Some h => h c res
    | None => res
    end.

End Handlers.

(** One request through the three functions of its route, [jwtAuth],
    [requireRole(...)] and the handler, once Express has matched the
    route and handed the request over with parameters and body [c].
    What runs before the route ([cors()], [express.json()], the decoding
    of the path) belongs to Express and its packages and can answer a
    request by itself; it is not part of this run. *)
Definition through_route
  (jwt_verify : Z -> string -> string -> Completion Properties)
  (supabase : Supabase) (max_arguments : nat) (K : Constants)
  (now : Z) (r : Route) (req : Request) (c : Content) : Run :=
  handle jwt_verify (books_operation supabase max_arguments c) K now r req.



Definition falsy (v : JSValue) : Prop :=
  v = JSUndefined \/ v = JSNull \/ v = JSBool false
  \/ v = JSNumber 0 \/ v = JSString "".

Definition identity_of (c : Completion Outcome) : option User :=
  match c with
  | Normal (Next req _) => user req
  | _ => None
  end.

(** The values [String] converts without throwing: anything but an
    object with an own [toString] property, alone or somewhere inside an
    array. *)
Fixpoint coercible (v : JSValue) : bool :=
  match v with
  | JSArray elements =>
      (fix all (l : list JSValue) : bool :=
         match l with
         | [] => true
         | x :: rest => coercible x && all rest
         end) elements
  | JSObject properties => negb (hasOwnProperty "toString" properties)
  | _ => true
  end.

(** Where [digits] stops: at a character that is no digit, or at the
    end of the string. *)
Definition stops (radix : Z) (s : string) : bool :=
  match s with
  | EmptyString => true
  | String c _ =>
      match digit radix c with
      | Some _ => false
      | None => true
      end
  end.

Definition starts_with_x (s : string) : bool :=
  match s with
  | String c _ => Ascii.eqb c "x" || Ascii.eqb c "X"
  | EmptyString => false
  end.

(** The value of a decimal numeral read from the left, [a] being the
    value of the digits before it. *)
Fixpoint uint_acc (d : Decimal.uint) (a : Z) : Z :=
  match d with
  | Decimal.Nil => a
  | Decimal.D0 l => uint_acc l (10 * a)
  | Decimal.D1 l => uint_acc l (10 * a + 1)
  | Decimal.D2 l => uint_acc l (10 * a + 2)
  | Decimal.D3 l => uint_acc l (10 * a + 3)
  | Decimal.D4 l => uint_acc l (10 * a + 4)
  | Decimal.D5 l => uint_acc l (10 * a + 5)
  | Decimal.D6 l => uint_acc l (10 * a + 6)
  | Decimal.D7 l => uint_acc l (10 * a + 7)
  | Decimal.D8 l => uint_acc l (10 * a + 8)
  | Decimal.D9 l => uint_acc l (10 * a + 9)
  end%Z.

(* ================================================================== *)
(** ** A books table to run the handlers on *)

Module Library.

Definition gatsby : JSValue :=
  JSObject
    [("id", JSNumber 1); ("title", JSString "The Great Gatsby");
     ("genres", JSString "Fiction,Classic");
     ("authors", JSString "F. Scott Fitzgerald"); ("year", JSNumber 1925)].

Definition ulysses : JSValue :=
  JSObject
    [("id", JSNumber 2); ("title", JSString "Ulysses");
     ("genres", JSString "Fiction"); ("authors", JSString "James Joyce");
     ("year", JSNumber 1922)].

Definition no_row : Postgrest.Error :=
  {| Postgrest.code := "PGRST116";
     Postgrest.message :=
       "JSON object requested, multiple (or no) rows returned" |}.

Definition refused : Postgrest.Error :=
  {| Postgrest.code := "42501"; Postgrest.message := "permission denied" |}.

Definition is_one (id : option string) : bool :=
  match id with
  | Some s => String.eqb s "1"
  | None => false
  end.

(** Two books; the book with id 1 can be read, changed and deleted, and
    any book can be added. *)
Definition supabase : Supabase :=
  {| rows := fun q =>
       match q with
       | SelectYear (Int 1925) => Data [gatsby]
       | SelectYear _ => Data []
       | _ => Data [gatsby; ulysses]
       end;
     single := fun q =>
       match q with
       | SelectById id | DeleteBook id =>
           if is_one id then Data gatsby else Failed no_row
       | UpdateBook id t g a y =>
           if is_one id then
             Data (JSObject [("id", JSNumber 1); ("title", t); ("genres", g);
                             ("authors", a); ("year", y)])
           else Failed no_row
       | InsertBook t g a y =>
           Data (JSObject [("id", JSNumber 3); ("title", t); ("genres", g);
                           ("authors", a); ("year", y)])
       | _ => Failed refused
       end;
     years := fun _ => Data [Some 1925%Z; None; Some 1922%Z] |}.


(** A table nobody may touch. *)
Definition locked : Supabase :=
  {| rows := fun _ => Failed refused;
     single := fun _ => Failed refused;
     years := fun _ => Failed refused |}.

Definition new_book : Content :=
  {| params := [];
     req_body :=
       Some [("title", JSString "Dubliners"); ("genres", JSString "Fiction");
             ("authors", JSString "James Joyce");
             ("year", JSNumber 1914)] |}.

(** A book of the year 0. *)
Definition year_zero : Content :=
  {| params := [("id", "1")];
     req_body :=
       Some [("title", JSString "Annals"); ("genres", JSString "History");
             ("authors", JSString "Tacitus"); ("year", JSNumber 0)] |}.

Definition book (id : string) : Content :=
  {| params := [("id", id)]; req_body := Some [] |}.

Definition of_year (y : string) : Content :=
  {| params := [("year", y)]; req_body := Some [] |}.


(** A request whose body [express.json()] left undefined. *)
Definition no_body : Content := {| params := [("id", "1")]; req_body := None |}.

(** The argument limit the examples run with. *)
Definition max_arguments : nat := 1000.

Definition librarian_token : Fixture.Issued :=
  {| Fixture.text := "token-librarian";
     Fixture.signed_with := Fixture.deployed_secret;
     Fixture.claims := [("userId", JSNumber 9); ("role", JSString "librarian");
                        ("exp", JSNumber 2000)] |}.

(** The verifier of the fixture, knowing one more token. *)
Definition jwt_verify (now : Z) (token secret : string)
  : Completion Properties :=
  if String.eqb token "token-librarian" then
    if String.eqb secret Fixture.deployed_secret then
      if (2000 <=? now)%Z then
        Throw (Error "TokenExpiredError" "jwt expired")
      else Normal (Fixture.claims librarian_token)
    else Throw (Error "JsonWebTokenError" "invalid signature")
  else Fixture.jwt_verify now token secret.

Definition put_book : Route :=
  {| method := "PUT"; path := "/api/books/:id";
     allowedRoles := librarian_only |}.

End Library.

(* ================================================================== *)
(** ** The built-ins *)

Example String_number : String_ (JSNumber 7) = Normal "7".
Proof. reflexivity. Qed.

Example String_array :
  String_ (JSArray [JSNumber 1; JSNull; JSArray [JSString "a"; JSBool true]])
  = Normal "1,,a,true".
Proof. reflexivity. Qed.

Example String_object_own_toString :
  String_ (JSObject [("toString", JSNull)]) = Throw cannot_convert.
Proof. reflexivity. Qed.

Example trim_both_ends :
  trim (String (ascii_of_nat 9) " ab c  ") = "ab c".
Proof. reflexivity. Qed.

Lemma startsWith_app (p rest : string) : startsWith (p ++ rest) p = true.
Proof.
  unfold startsWith. induction p as [|c p IH]; simpl.
  - destruct rest; reflexivity.
  - destruct (Ascii.ascii_dec c c) as [_|n]; [exact IH | now elim n].
Qed.

Lemma startsWith_inv (p s : string) :
  startsWith s p = true -> exists rest, s = p ++ rest.
Proof.
  unfold startsWith. revert s. induction p as [|c p IH]; intros s H.
  - exists s. reflexivity.
  - destruct s as [|d s]; simpl in H; [discriminate|].
    destruct (Ascii.ascii_dec c d) as [->|]; [|discriminate].
    destruct (IH _ H) as [rest ->]. exists rest. reflexivity.
Qed.

Lemma startsWith_iff (p s : string) :
  startsWith s p = true <-> exists rest, s = p ++ rest.
Proof.
  split; [apply startsWith_inv|].
  intros [rest ->]. apply startsWith_app.
Qed.

Lemma slice_app (p rest : string) : slice (String.length p) (p ++ rest) = rest.
Proof.
  induction p as [|c p IH]; simpl; [destruct rest; reflexivity | exact IH].
Qed.

Lemma get_absent (key : string) (props : Properties) :
  hasOwnProperty key props = false -> get key props = JSUndefined.
Proof.
  induction props as [|[k v] rest IH]; simpl; [reflexivity|].
  intros H. apply orb_false_iff in H. destruct H as [Hk Hrest].
  rewrite Hk. exact (IH Hrest).
Qed.

Lemma includes_strings (roles : list string) (v : JSValue) :
  includes (map JSString roles) v = true
  <-> exists r, v = JSString r /\ In r roles.
Proof.
  unfold includes. rewrite existsb_exists. split.
  - intros [x [Hin Heq]]. apply in_map_iff in Hin.
    destruct Hin as [r [<- Hr]].
    destruct v; simpl in Heq; try discriminate.
    apply String.eqb_eq in Heq. subst. eauto.
  - intros [r [-> Hr]]. exists (JSString r). split.
    + apply in_map. exact Hr.
    + simpl. apply String.eqb_refl.
Qed.

(* ================================================================== *)
(** ** The two middleware functions *)

Section Middleware_facts.

Variable jwt_verify : Z -> string -> string -> Completion Properties.
Variable operation : Route -> Request -> Response -> Response.
Variable K : Constants.

Lemma jwtAuth_no_prefix now req res :
  startsWith (credential req) "Bearer " = false ->
  jwtAuth jwt_verify K now req res
  = Normal (Responded req (unauthenticated_missing res)).
Proof.
  intros H. unfold jwtAuth. fold (credential req).
  rewrite H. reflexivity.
Qed.

Lemma jwtAuth_bearer now req res rest :
  credential req = "Bearer " ++ rest ->
  jwtAuth jwt_verify K now req res =
  Normal
    (match jwt_verify now (trim rest) (JWT_SECRET K) with
     | Throw _ => Responded req (unauthenticated_invalid res)
     | Normal decoded =>
         match String_ (get "userId" decoded) with
         | Throw _ => Responded req (unauthenticated_invalid res)
         | Normal uid =>
             Next (set_user {| userId := uid; role := get "role" decoded |}
                            req) res
         end
     end).
Proof.
  intros H. unfold jwtAuth. fold (credential req).
  rewrite H, startsWith_app. cbn [negb].
  change (String.length "Bearer ") with 7%nat.
  change (slice 7 ("Bearer " ++ rest)) with rest.
  destruct (jwt_verify now (trim rest) (JWT_SECRET K)) as [decoded|e];
    cbn [bind try_catch]; [|reflexivity].
  destruct (String_ (get "userId" decoded)); reflexivity.
Qed.

(** Whatever the request, [jwtAuth] completes normally, and when it calls
    [next()] it has assigned [req.user] and left the response alone. *)
Lemma jwtAuth_total now req res :
  exists o, jwtAuth jwt_verify K now req res = Normal o.
Proof. unfold jwtAuth. destruct (negb _); eauto. Qed.

Lemma jwtAuth_next now req res req' res' :
  jwtAuth jwt_verify K now req res = Normal (Next req' res') ->
  exists u, req' = set_user u req /\ res' = res.
Proof.
  destruct (startsWith (credential req) "Bearer ") eqn:Hp.
  - apply startsWith_inv in Hp. destruct Hp as [rest Hrest].
    rewrite (jwtAuth_bearer now req res rest Hrest).
    destruct (jwt_verify _ _ _) as [decoded|]; [|discriminate].
    destruct (String_ _) as [uid|]; [|discriminate].
    intros H. injection H as <- <-. eauto.
  - rewrite (jwtAuth_no_prefix now req res Hp). discriminate.
Qed.

Lemma jwtAuth_rejects now req res :
  passed (jwtAuth jwt_verify K now req res) = false ->
  exists out,
    jwtAuth jwt_verify K now req res = Normal (Responded req out)
    /\ statusCode out = 401%Z
    /\ error_of out = JSString "TidakTerautentikasi".
Proof.
  destruct (startsWith (credential req) "Bearer ") eqn:Hp.
  - apply startsWith_inv in Hp. destruct Hp as [rest Hrest].
    rewrite (jwtAuth_bearer now req res rest Hrest).
    destruct (jwt_verify _ _ _) as [decoded|].
    + destruct (String_ _) as [uid|]; [discriminate|].
      intros _. exists (unauthenticated_invalid res). auto.
    + intros _. exists (unauthenticated_invalid res). auto.
  - rewrite (jwtAuth_no_prefix now req res Hp).
    intros _. exists (unauthenticated_missing res). auto.
Qed.

Lemma requireRole_cases allowed req res :
  requireRole allowed req res =
  match user req with
  | Some u =>
      if includes allowed (role u) then Normal (Next req res)
      else Normal (Responded req (forbidden res))
  | None => Normal (Responded req (forbidden res))
  end.
Proof.
  unfold requireRole. destruct (user req) as [u|]; [|reflexivity].
  destruct (includes allowed (role u)); reflexivity.
Qed.

(** The three ways a request can go through a route. *)
Lemma handle_rejected now r req rq out :
  jwtAuth jwt_verify K now req new_response = Normal (Responded rq out) ->
  handle jwt_verify operation K now r req
  = {| trace := [(StageJwtAuth, req)]; response := out |}.
Proof.
  intros H. unfold handle, stack. cbn [dispatch].
  rewrite H. reflexivity.
Qed.

Lemma handle_forbidden now r req req' res' :
  jwtAuth jwt_verify K now req new_response = Normal (Next req' res') ->
  (forall u, user req' = Some u ->
             includes (allowedRoles r) (role u) = false) ->
  handle jwt_verify operation K now r req =
  {| trace := [(StageJwtAuth, req); (StageRequireRole, req')];
     response := forbidden res' |}.
Proof.
  intros H Hrole. unfold handle, stack. cbn [dispatch].
  rewrite H, requireRole_cases.
  destruct (user req') as [u|]; [|reflexivity].
  rewrite (Hrole u eq_refl). reflexivity.
Qed.

Lemma handle_authorized now r req req' res' u :
  jwtAuth jwt_verify K now req new_response = Normal (Next req' res') ->
  user req' = Some u ->
  includes (allowedRoles r) (role u) = true ->
  handle jwt_verify operation K now r req =
  {| trace := [(StageJwtAuth, req); (StageRequireRole, req');
               (StageHandler, req')];
     response := operation r req' res' |}.
Proof.
  intros H Hu Hrole. unfold handle, stack. cbn [dispatch].
  rewrite H, requireRole_cases, Hu, Hrole. reflexivity.
Qed.

(** C1.  On every route, a request that [jwtAuth] turns away is answered
    401 with the error [TidakTerautentikasi], and [jwtAuth] is the only
    stage that ran: neither [requireRole] nor the handler executes.  And
    on every run, a stage other than [jwtAuth] only ever receives a
    request that [jwtAuth] let through with an identity attached. *)
Theorem authentication_gates_the_route now (r : Route) (req : Request) :
  (passed (jwtAuth jwt_verify K now req new_response) = false ->
   trace (handle jwt_verify operation K now r req) = [(StageJwtAuth, req)]
   /\ ran StageRequireRole (handle jwt_verify operation K now r req) = false
   /\ ran StageHandler (handle jwt_verify operation K now r req) = false
   /\ statusCode (response (handle jwt_verify operation K now r req)) = 401%Z
   /\ error_of (response (handle jwt_verify operation K now r req))
      = JSString "TidakTerautentikasi")
  /\ (forall st rq,
        In (st, rq) (trace (handle jwt_verify operation K now r req)) ->
        st <> StageJwtAuth ->
        exists u,
          user rq = Some u
          /\ jwtAuth jwt_verify K now req new_response
             = Normal (Next rq new_response)).
Proof.
  split.
  - intros Hfail.
    destruct (jwtAuth_rejects now req new_response Hfail)
      as [out [Hout [Hs He]]].
    rewrite (handle_rejected now r req req out Hout). cbn. auto.
  - intros st rq Hin Hst.
    destruct (jwtAuth_total now req new_response) as [[req' res'|rq' out] Ho].
    + destruct (jwtAuth_next now req new_response req' res' Ho)
        as [u [-> ->]].
      assert (Htrace :
        exists tail,
          trace (handle jwt_verify operation K now r req)
          = (StageJwtAuth, req) :: tail
          /\ forall e, In e tail -> snd e = set_user u req).
      { destruct (includes (allowedRoles r) (role u)) eqn:Hrole.
        - rewrite (handle_authorized now r req _ _ u Ho eq_refl Hrole).
          eexists. split; [reflexivity|].
          intros e [<-|[<-|[]]]; reflexivity.
        - rewrite (handle_forbidden now r req _ _ Ho).
          + eexists. split; [reflexivity|].
            intros e [<-|[]]; reflexivity.
          + intros u' Hu'. injection Hu' as <-. exact Hrole. }
      destruct Htrace as [tail [Heq Htail]]. rewrite Heq in Hin.
      destruct Hin as [Hin|Hin].
      * injection Hin as <- <-. congruence.
      * apply Htail in Hin. cbn in Hin. subst rq.
        exists u. split; [reflexivity | exact Ho].
    + rewrite (handle_rejected now r req rq' out Ho) in Hin.
      destruct Hin as [Hin|[]]. injection Hin as <- <-. congruence.
Qed.

(** C2.  For a declared set of role names, [requireRole] calls [next()],
    request and response untouched, exactly when [req.user] is there and
    its role is a name of the set; in every other case, an absent
    identity included, it answers 403 with the error [AksesDitolak]. *)
Theorem requireRole_membership (roles : list string) (req : Request)
  (res : Response) :
  let permitted :=
    exists u r, user req = Some u /\ role u = JSString r /\ In r roles in
  (requireRole (map JSString roles) req res = Normal (Next req res)
   <-> permitted)
  /\ (~ permitted ->
      requireRole (map JSString roles) req res
      = Normal (Responded req (forbidden res))
      /\ statusCode (forbidden res) = 403%Z
      /\ error_of (forbidden res) = JSString "AksesDitolak").
Proof.
  intros permitted. rewrite requireRole_cases.
  assert (Hdec : permitted \/ ~ permitted).
  { unfold permitted. destruct (user req) as [u|].
    - destruct (includes (map JSString roles) (role u)) eqn:Hinc.
      + apply includes_strings in Hinc. destruct Hinc as [r [Hr Hin]].
        left. eauto.
      + right. intros [u' [r [Hu [Hr Hin]]]]. injection Hu as <-.
        assert (includes (map JSString roles) (role u) = true)
          by (apply includes_strings; eauto).
        congruence.
    - right. intros [u' [r [Hu _]]]. discriminate. }
  assert (Hyes : permitted ->
    match user req with
    | Some u =>
        if includes (map JSString roles) (role u) then Normal (Next req res)
        else Normal (Responded req (forbidden res))
    | None => Normal (Responded req (forbidden res))
    end = Normal (Next req res)).
  { intros [u [r [Hu [Hr Hin]]]]. rewrite Hu.
    replace (includes (map JSString roles) (role u)) with true; [reflexivity|].
    symmetry. apply includes_strings. eauto. }
  assert (Hno : ~ permitted ->
    match user req with
    | Some u =>
        if includes (map JSString roles) (role u) then Normal (Next req res)
        else Normal (Responded req (forbidden res))
    | None => Normal (Responded req (forbidden res))
    end = Normal (Responded req (forbidden res))).
  { intros Hn. destruct (user req) as [u|] eqn:Hu; [|reflexivity].
    destruct (includes (map JSString roles) (role u)) eqn:Hinc; [|reflexivity].
    exfalso. apply Hn. apply includes_strings in Hinc.
    destruct Hinc as [r [Hr Hin]]. exists u, r. auto. }
  split.
  - split; [|exact Hyes].
    intros H. destruct Hdec as [Hp|Hn]; [exact Hp|].
    rewrite (Hno Hn) in H. discriminate.
  - intros Hn. split; [exact (Hno Hn)|]. split; reflexivity.
Qed.

(** C3.  When the request has no authorization header, or has one that
    does not begin with the seven characters [Bearer ] (capital B, one
    space), [jwtAuth] completes normally with the answer 401, error
    [TidakTerautentikasi] and the message asking for a bearer token;
    the token verifier plays no part in it. *)
Theorem jwtAuth_missing_or_malformed now (req : Request) (res : Response) :
  (lookup "authorization" (headers req) = None
   \/ exists h, lookup "authorization" (headers req) = Some h
                /\ forall rest, h <> "Bearer " ++ rest) ->
  jwtAuth jwt_verify K now req res
  = Normal (Responded req (unauthenticated_missing res))
  /\ statusCode (unauthenticated_missing res) = 401%Z
  /\ error_of (unauthenticated_missing res) = JSString "TidakTerautentikasi"
  /\ message_of (unauthenticated_missing res)
     = JSString
         "Token Bearer tidak ditemukan. Tambahkan Authorization: Bearer <token>.".
Proof.
  intros H. split; [|repeat split].
  apply jwtAuth_no_prefix. unfold credential.
  destruct H as [->|[h [-> Hh]]]; [reflexivity|].
  destruct (startsWith (or_string (Some h) "") "Bearer ") eqn:Hp;
    [|reflexivity].
  apply startsWith_inv in Hp. destruct Hp as [rest Hrest].
  exfalso. apply (Hh rest). revert Hrest. unfold or_string.
  destruct (String.eqb_spec h ""); [discriminate | tauto].
Qed.

(** C4.  When the header carries a token and verifying it throws, for
    whatever reason and whatever the token holds, [jwtAuth] answers 401
    with one fixed body: error [TidakTerautentikasi], message
    [Token tidak valid atau sudah kedaluwarsa.].  The answer depends on
    nothing but the response object it was written to, so two tokens
    failing for different reasons are answered alike. *)
Theorem jwtAuth_collapses_failures now (req : Request) (res : Response)
  (rest : string) (e : JSError) :
  credential req = "Bearer " ++ rest ->
  jwt_verify now (trim rest) (JWT_SECRET K) = Throw e ->
  jwtAuth jwt_verify K now req res
  = Normal (Responded req (unauthenticated_invalid res))
  /\ statusCode (unauthenticated_invalid res) = 401%Z
  /\ error_of (unauthenticated_invalid res) = JSString "TidakTerautentikasi"
  /\ message_of (unauthenticated_invalid res)
     = JSString "Token tidak valid atau sudah kedaluwarsa."
  /\ forall now' req' rest' e',
       credential req' = "Bearer " ++ rest' ->
       jwt_verify now' (trim rest') (JWT_SECRET K) = Throw e' ->
       exists rq,
         jwtAuth jwt_verify K now' req' res
         = Normal (Responded rq (unauthenticated_invalid res)).
Proof.
  intros Hc Hv. split; [|repeat split].
  - rewrite (jwtAuth_bearer now req res rest Hc), Hv. reflexivity.
  - intros now' req' rest' e' Hc' Hv'. exists req'.
    rewrite (jwtAuth_bearer now' req' res rest' Hc'), Hv'. reflexivity.
Qed.

Lemma String_primitive (v : JSValue) :
  primitive v = true -> exists s, String_ v = Normal s.
Proof. destruct v; cbn; intros H; try discriminate; eauto. Qed.

(** C5, as the code has it.  A token that verifies yields an identity
    whenever [String] can convert its [userId] claim: the request goes on
    with [req.user.userId] that conversion and [req.user.role] the role
    claim as it stands, nothing else of the request is changed, and the
    response is left alone.  Every claim that is not an object converts.
    A claim [String] throws on is caught by the same [catch] and
    answered 401 as an invalid token, with no identity attached. *)
Theorem jwtAuth_identity_of_verified_token now (req : Request)
  (res : Response) (rest : string) (decoded : Properties) :
  credential req = "Bearer " ++ rest ->
  jwt_verify now (trim rest) (JWT_SECRET K) = Normal decoded ->
  (forall uid,
     String_ (get "userId" decoded) = Normal uid ->
     jwtAuth jwt_verify K now req res
     = Normal (Next (set_user {| userId := uid; role := get "role" decoded |}
                              req) res)
     /\ exists rq,
          jwtAuth jwt_verify K now req res = Normal (Next rq res)
          /\ user rq = Some {| userId := uid; role := get "role" decoded |}
          /\ headers rq = headers req)
  /\ (primitive (get "userId" decoded) = true ->
      exists uid rq,
        String_ (get "userId" decoded) = Normal uid
        /\ jwtAuth jwt_verify K now req res = Normal (Next rq res)
        /\ user rq = Some {| userId := uid; role := get "role" decoded |}
        /\ jwtAuth jwt_verify K now req res
           = Normal (Next (set_user {| userId := uid;
                                       role := get "role" decoded |} req)
                          res))
  /\ (forall e,
        String_ (get "userId" decoded) = Throw e ->
        jwtAuth jwt_verify K now req res
        = Normal (Responded req (unauthenticated_invalid res))
        /\ identity_of (jwtAuth jwt_verify K now req res) = None
        /\ statusCode (unauthenticated_invalid res) = 401%Z
        /\ error_of (unauthenticated_invalid res)
           = JSString "TidakTerautentikasi"
        /\ message_of (unauthenticated_invalid res)
           = JSString "Token tidak valid atau sudah kedaluwarsa.").
Proof.
  intros Hc Hv. rewrite (jwtAuth_bearer now req res rest Hc), Hv.
  split; [|split].
  - intros uid ->. split; [reflexivity|].
    eexists. split; [reflexivity|]. split; reflexivity.
  - intros Hp. destruct (String_primitive _ Hp) as [uid Hs].
    exists uid. eexists. rewrite Hs.
    split; [reflexivity|]. split; [reflexivity|]. split; reflexivity.
  - intros e ->. repeat split.
Qed.

(** C6.  Provided the verifier decodes a token to the same payload each
    time it accepts it, two verifications of one credential, at any two
    instants and on any two request and response objects, attach the same
    identity; [jwtAuth] writes nothing but [req.user] when it lets a
    request through.  Whether [requireRole] lets a request through
    is decided by [req.user] and the allowed roles alone; it never
    throws, never touches the request, and touches the response only to
    write the 403 answer. *)
Theorem verification_and_authorization_are_functions :
  (forall t1 t2 token secret p1 p2,
     jwt_verify t1 token secret = Normal p1 ->
     jwt_verify t2 token secret = Normal p2 -> p1 = p2) ->
  (forall t1 t2 req1 req2 res1 res2 rq1 rq2 out1 out2,
     credential req1 = credential req2 ->
     jwtAuth jwt_verify K t1 req1 res1 = Normal (Next rq1 out1) ->
     jwtAuth jwt_verify K t2 req2 res2 = Normal (Next rq2 out2) ->
     user rq1 = user rq2
     /\ headers rq1 = headers req1 /\ out1 = res1)
  /\ (forall allowed req1 req2 res1 res2,
        user req1 = user req2 ->
        passed (requireRole allowed req1 res1)
        = passed (requireRole allowed req2 res2))
  /\ (forall allowed req res,
        requireRole allowed req res = Normal (Next req res)
        \/ requireRole allowed req res
           = Normal (Responded req (forbidden res))).
Proof.
  intros Hstable. split; [|split].
  - intros t1 t2 req1 req2 res1 res2 rq1 rq2 out1 out2 Hc H1 H2.
    destruct (jwtAuth_next _ _ _ _ _ H1) as [u1 [-> ->]].
    split; [|split; reflexivity].
    destruct (startsWith (credential req1) "Bearer ") eqn:Hp.
    + apply startsWith_inv in Hp. destruct Hp as [rest Hrest].
      assert (Hrest2 : credential req2 = "Bearer " ++ rest) by congruence.
      rewrite (jwtAuth_bearer t1 req1 res1 rest Hrest) in H1.
      rewrite (jwtAuth_bearer t2 req2 res2 rest Hrest2) in H2.
      destruct (jwt_verify t1 _ _) as [p1|] eqn:Hv1; [|discriminate].
      destruct (jwt_verify t2 _ _) as [p2|] eqn:Hv2; [|discriminate].
      rewrite (Hstable _ _ _ _ _ _ Hv1 Hv2) in H1.
      destruct (String_ (get "userId" p2)); [|discriminate].
      injection H1 as H1. injection H2 as H2 _.
      rewrite <- H1, <- H2. reflexivity.
    + rewrite (jwtAuth_no_prefix t1 req1 res1 Hp) in H1. discriminate.
  - intros allowed req1 req2 res1 res2 Hu.
    rewrite !requireRole_cases, Hu.
    destruct (user req2) as [u|]; [|reflexivity].
    destruct (includes allowed (role u)); reflexivity.
  - intros allowed req res. rewrite requireRole_cases.
    destruct (user req) as [u|]; [|auto].
    destruct (includes allowed (role u)); auto.
Qed.

Lemma includes_declared_roles (r : Route) (v : JSValue) :
  In r routes ->
  includes (allowedRoles r) v = true ->
  v = JSString "member" \/ v = JSString "librarian".
Proof.
  intros Hr Hinc.
  assert (Hsub : forall x, In x (allowedRoles r) ->
                           x = JSString "member" \/ x = JSString "librarian").
  { cbn in Hr.
    repeat (destruct Hr as [<-|Hr];
            [cbn; intuition auto|]); contradiction. }
  unfold includes in Hinc. apply existsb_exists in Hinc.
  destruct Hinc as [x [Hin Heq]].
  destruct (Hsub x Hin) as [->| ->];
    destruct v; cbn [SameValueZero] in Heq; try discriminate;
    apply String.eqb_eq in Heq; subst; auto.
Qed.

(** C8, as the code has it.  [jwtAuth] copies the role claim without
    looking at it: a token that verifies, with a subject [String] can
    convert, goes through, and the identity in [req.user] has whatever
    its role claim holds, [undefined] when it has none; two tokens that
    verify and agree on the subject are let through or turned away alike
    whatever their roles.  On each of the nine routes an identity whose
    role is neither [member] nor [librarian] is then answered 403
    [AksesDitolak] and the handler does not run; so a handler only ever
    receives an identity whose role is one of the two. *)
Theorem role_claim_is_not_validated now (req : Request) :
  (forall res rest decoded uid,
     credential req = "Bearer " ++ rest ->
     jwt_verify now (trim rest) (JWT_SECRET K) = Normal decoded ->
     String_ (get "userId" decoded) = Normal uid ->
     (exists rq u,
        jwtAuth jwt_verify K now req res = Normal (Next rq res)
        /\ user rq = Some u
        /\ role u = get "role" decoded
        /\ userId u = uid)
     /\ jwtAuth jwt_verify K now req res
        = Normal (Next (set_user {| userId := uid;
                                    role := get "role" decoded |} req) res)
     /\ (hasOwnProperty "role" decoded = false ->
         exists rq u,
           jwtAuth jwt_verify K now req res = Normal (Next rq res)
           /\ user rq = Some u
           /\ role u = JSUndefined))
  /\ (forall res now2 req2 rest rest2 decoded decoded2,
        credential req = "Bearer " ++ rest ->
        credential req2 = "Bearer " ++ rest2 ->
        jwt_verify now (trim rest) (JWT_SECRET K) = Normal decoded ->
        jwt_verify now2 (trim rest2) (JWT_SECRET K) = Normal decoded2 ->
        get "userId" decoded = get "userId" decoded2 ->
        passed (jwtAuth jwt_verify K now req res)
        = passed (jwtAuth jwt_verify K now2 req2 res))
  /\ (forall r rq out u,
        In r routes ->
        jwtAuth jwt_verify K now req new_response = Normal (Next rq out) ->
        user rq = Some u ->
        role u <> JSString "member" ->
        role u <> JSString "librarian" ->
        statusCode (response (handle jwt_verify operation K now r req))
        = 403%Z
        /\ error_of (response (handle jwt_verify operation K now r req))
           = JSString "AksesDitolak"
        /\ ran StageHandler (handle jwt_verify operation K now r req) = false)
  /\ (forall r rq,
        In r routes ->
        In (StageHandler, rq)
           (trace (handle jwt_verify operation K now r req)) ->
        exists u,
          user rq = Some u
          /\ (role u = JSString "member" \/ role u = JSString "librarian")).
Proof.
  split; [|split; [|split]].
  - intros res rest decoded uid Hc Hv Hs.
    rewrite (jwtAuth_bearer now req res rest Hc), Hv, Hs.
    split; [|split; [reflexivity|]].
    + do 2 eexists. split; [reflexivity|]. repeat split.
    + intros Hno. do 2 eexists. split; [reflexivity|].
      split; [reflexivity|]. exact (get_absent "role" decoded Hno).
  - intros res now2 req2 rest rest2 decoded decoded2 Hc Hc2 Hv Hv2 Hsame.
    rewrite (jwtAuth_bearer now req res rest Hc), Hv.
    rewrite (jwtAuth_bearer now2 req2 res rest2 Hc2), Hv2.
    rewrite Hsame. destruct (String_ (get "userId" decoded2)); reflexivity.
  - intros r rq out u Hr Hauth Hu Hm Hl.
    rewrite (handle_forbidden now r req rq out Hauth).
    + cbn. auto.
    + intros u' Hu'. assert (u' = u) by congruence. subst u'.
      destruct (includes (allowedRoles r) (role u)) eqn:Hinc; [|reflexivity].
      destruct (includes_declared_roles r (role u) Hr Hinc); contradiction.
  - intros r rq Hr Hin.
    destruct (jwtAuth_total now req new_response) as [[req' res'|rq' out] Ho].
    + destruct (jwtAuth_next _ _ _ _ _ Ho) as [u [-> ->]].
      destruct (includes (allowedRoles r) (role u)) eqn:Hinc.
      * rewrite (handle_authorized now r req _ _ u Ho eq_refl Hinc) in Hin.
        cbn in Hin.
        destruct Hin as [Hin|[Hin|[Hin|[]]]]; try discriminate.
        injection Hin as <-. exists u. split; [reflexivity|].
        exact (includes_declared_roles r (role u) Hr Hinc).
      * rewrite (handle_forbidden now r req _ _ Ho) in Hin.
        -- cbn in Hin. destruct Hin as [Hin|[Hin|[]]]; discriminate.
        -- intros u' Hu'. injection Hu' as <-. exact Hinc.
    + rewrite (handle_rejected now r req rq' out Ho) in Hin.
      cbn in Hin. destruct Hin as [Hin|[]]. discriminate.
Qed.

(** C9.  A token that verifies and has no [userId] claim is let through
    all the same: [String(undefined)] is the text [undefined], and that
    is the subject of the identity left in [req.user], beside the role
    claim as it stands. *)
Theorem jwtAuth_missing_userId now (req : Request) (res : Response)
  (rest : string) (decoded : Properties) :
  credential req = "Bearer " ++ rest ->
  jwt_verify now (trim rest) (JWT_SECRET K) = Normal decoded ->
  hasOwnProperty "userId" decoded = false ->
  jwtAuth jwt_verify K now req res
  = Normal (Next (set_user {| userId := "undefined";
                              role := get "role" decoded |} req) res)
  /\ exists rq u,
       jwtAuth jwt_verify K now req res = Normal (Next rq res)
       /\ user rq = Some u
       /\ userId u = "undefined"
       /\ role u = get "role" decoded
       /\ headers rq = headers req.
Proof.
  intros Hc Hv Hno.
  rewrite (jwtAuth_bearer now req res rest Hc), Hv.
  rewrite (get_absent "userId" decoded Hno). cbn [String_].
  split; [reflexivity|].
  do 2 eexists. split; [reflexivity|]. repeat split.
Qed.

Lemma trimStart_blank (s : string) : blank s = true -> trimStart s = "".
Proof.
  induction s as [|c s IH]; cbn [blank trimStart]; [reflexivity|].
  intros H. apply andb_true_iff in H. destruct H as [Hc Hs].
  rewrite Hc. exact (IH Hs).
Qed.

Lemma trim_blank (s : string) : blank s = true -> trim s = "".
Proof. intros H. unfold trim. rewrite (trimStart_blank s H). reflexivity. Qed.

(** C10, as the code has it.  A header made of [Bearer ], the space
    included, followed by white space only (or by nothing) passes the
    prefix test; the token left after trimming is empty, and when the
    verifier throws on the empty token the answer is the 401 of an
    invalid token, with that message and not the one asking for a
    bearer token. *)
Theorem jwtAuth_blank_token now (req : Request) (res : Response)
  (ws : string) (e : JSError) :
  blank ws = true ->
  credential req = "Bearer " ++ ws ->
  jwt_verify now "" (JWT_SECRET K) = Throw e ->
  startsWith (credential req) "Bearer " = true
  /\ trim (slice 7 (credential req)) = ""
  /\ jwtAuth jwt_verify K now req res
     = Normal (Responded req (unauthenticated_invalid res))
  /\ statusCode (unauthenticated_invalid res) = 401%Z
  /\ message_of (unauthenticated_invalid res)
     = JSString "Token tidak valid atau sudah kedaluwarsa.".
Proof.
  intros Hb Hc Hv. split; [|split; [|split; [|split; reflexivity]]].
  - rewrite Hc. apply startsWith_app.
  - rewrite Hc. change (slice 7 ("Bearer " ++ ws)) with ws.
    exact (trim_blank ws Hb).
  - rewrite (jwtAuth_bearer now req res ws Hc), (trim_blank ws Hb), Hv.
    reflexivity.
Qed.

End Middleware_facts.

(** C7.  When the environment has no [JWT_SECRET], the constant bound at
    load time is [your-secret-key-change-this]; every request the process
    then serves is handled with that constant, and [jwtAuth] verifies
    each token against it. *)
Theorem default_secret_when_unset (env : ProcessEnv) :
  lookup "JWT_SECRET" env = None ->
  JWT_SECRET (load env) = "your-secret-key-change-this"
  /\ (forall jwt_verify operation incoming,
        serve jwt_verify operation env incoming
        = map (fun i =>
                 handle jwt_verify operation
                        {| JWT_SECRET := "your-secret-key-change-this" |}
                        (at_time i) (to_route i) (request i))
              incoming)
  /\ (forall jwt_verify now req res rest,
        credential req = "Bearer " ++ rest ->
        jwtAuth jwt_verify (load env) now req res
        = Normal
            (match jwt_verify now (trim rest) "your-secret-key-change-this"
             with
             | Throw _ => Responded req (unauthenticated_invalid res)
             | Normal decoded =>
                 match String_ (get "userId" decoded) with
                 | Throw _ => Responded req (unauthenticated_invalid res)
                 | Normal uid =>
                     Next (set_user {| userId := uid;
                                       role := get "role" decoded |} req)
                          res
                 end
             end)).
Proof.
  intros Henv.
  assert (Hload : load env = {| JWT_SECRET := "your-secret-key-change-this" |}).
  { unfold load. rewrite Henv. reflexivity. }
  rewrite Hload. split; [reflexivity|]. split.
  - intros jwt_verify operation incoming. unfold serve.
    rewrite Hload. reflexivity.
  - intros jwt_verify now req res rest Hc.
    exact (jwtAuth_bearer jwt_verify _ now req res rest Hc).
Qed.

(* ================================================================== *)
(** ** The scenarios of the specification, run on the fixture *)

Module Scenarios.

Import Fixture.

(** Scenario A: the handler runs, and sees subject [7]. *)
Example scenario_A :
  handle jwt_verify operation K 1000 get_books (bearer "token-A")
  = {| trace := [(StageJwtAuth, bearer "token-A");
                 (StageRequireRole, identity_A);
                 (StageHandler, identity_A)];
       response := operation get_books identity_A new_response |}.
Proof. reflexivity. Qed.

(** Scenario B: the same token on a librarian-only route. *)
Example scenario_B :
  handle jwt_verify operation K 1000 post_books (bearer "token-A")
  = {| trace := [(StageJwtAuth, bearer "token-A");
                 (StageRequireRole, identity_A)];
       response := forbidden new_response |}.
Proof. reflexivity. Qed.

(** Scenario C: a header of another scheme. *)
Example scenario_C :
  handle jwt_verify operation K 1000 get_books (with_header "Basic abc123")
  = {| trace := [(StageJwtAuth, with_header "Basic abc123")];
       response := unauthenticated_missing new_response |}.
Proof. reflexivity. Qed.

(** Scenario D: a token signed with another secret and an expired token
    fail for different reasons and are answered alike. *)
Example scenario_D :
  jwt_verify 1000 "token-forged" (JWT_SECRET K)
  = Throw (Error "JsonWebTokenError" "invalid signature")
  /\ jwt_verify 3000 "token-A" (JWT_SECRET K)
     = Throw (Error "TokenExpiredError" "jwt expired")
  /\ response (handle jwt_verify operation K 1000 get_books
                      (bearer "token-forged"))
     = response (handle jwt_verify operation K 3000 get_books
                        (bearer "token-A")).
Proof. repeat split. Qed.

(** A role outside the declared sets authenticates and is then refused
    on every route. *)
Example admin_is_forbidden_everywhere :
  forallb
    (fun r =>
       let run := handle jwt_verify operation K 1000 r (bearer "token-admin")
       in Z.eqb (statusCode (response run)) 403
          && negb (ran StageHandler run))
    routes = true.
Proof. reflexivity. Qed.

(** A token without a role claim authenticates with role [undefined]
    and is refused by [requireRole]. *)
Example no_role_is_forbidden :
  handle jwt_verify operation K 1000 get_books (bearer "token-no-role")
  = {| trace :=
         [(StageJwtAuth, bearer "token-no-role");
          (StageRequireRole,
           set_user {| userId := "3"; role := JSUndefined |}
                    (bearer "token-no-role"))];
       response := forbidden new_response |}.
Proof. reflexivity. Qed.

(** The prefix is matched letter for letter: a lower-case scheme name is
    not a bearer credential, and neither is the scheme name alone. *)
Example lower_case_scheme_is_missing_credential :
  jwtAuth jwt_verify K 1000 (with_header "bearer token-A") new_response
  = Normal (Responded (with_header "bearer token-A")
                      (unauthenticated_missing new_response))
  /\ jwtAuth jwt_verify K 1000 (with_header "Bearer") new_response
     = Normal (Responded (with_header "Bearer")
                         (unauthenticated_missing new_response)).
Proof. split; reflexivity. Qed.

(** The header [Bearer ] with nothing after the space holds the empty
    token. *)
Example bare_prefix_is_invalid_token :
  jwtAuth jwt_verify K 1000 (with_header "Bearer ") new_response
  = Normal (Responded (with_header "Bearer ")
                      (unauthenticated_invalid new_response)).
Proof. reflexivity. Qed.

(** The fixture's verifier decodes an accepted token the same way at
    every instant. *)
Lemma jwt_verify_stable t1 t2 token secret p1 p2 :
  jwt_verify t1 token secret = Normal p1 ->
  jwt_verify t2 token secret = Normal p2 -> p1 = p2.
Proof.
  unfold jwt_verify.
  destruct (String.eqb token ""); [discriminate|].
  destruct (find _ issued) as [i|]; [|discriminate].
  destruct (negb _); [discriminate|].
  destruct (get "exp" (claims i)); try congruence.
  destruct (n <=? t1)%Z; [discriminate|].
  destruct (n <=? t2)%Z; [discriminate|]. congruence.
Qed.

End Scenarios.

(* ================================================================== *)
(** ** The theorems at concrete requests *)

Lemma authentication_gates_the_route_witness :
  passed (jwtAuth Fixture.jwt_verify Fixture.K 1000
                  (Fixture.with_header "Basic abc123") new_response) = false
  /\ trace (handle Fixture.jwt_verify Fixture.operation Fixture.K 1000
                   Fixture.post_books (Fixture.with_header "Basic abc123"))
     = [(StageJwtAuth, Fixture.with_header "Basic abc123")].
Proof.
  split; [reflexivity|].
  exact (proj1 (proj1 (authentication_gates_the_route
                         Fixture.jwt_verify Fixture.operation Fixture.K 1000
                         Fixture.post_books
                         (Fixture.with_header "Basic abc123"))
                      eq_refl)).
Defined.

Lemma requireRole_membership_witness :
  (exists u r, user Fixture.identity_A = Some u
               /\ role u = JSString r /\ In r ["member"; "librarian"])
  /\ requireRole (map JSString ["member"; "librarian"])
                 Fixture.identity_A new_response
     = Normal (Next Fixture.identity_A new_response).
Proof.
  assert (H : exists u r, user Fixture.identity_A = Some u
                          /\ role u = JSString r
                          /\ In r ["member"; "librarian"]).
  { exists {| userId := "7"; role := JSString "member" |}, "member".
    repeat split. left. reflexivity. }
  split; [exact H|].
  exact (proj2 (proj1 (requireRole_membership
                         ["member"; "librarian"] Fixture.identity_A
                         new_response)) H).
Defined.

Lemma jwtAuth_missing_or_malformed_witness :
  lookup "authorization" (headers Fixture.no_header) = None
  /\ jwtAuth Fixture.jwt_verify Fixture.K 1000 Fixture.no_header new_response
     = Normal (Responded Fixture.no_header
                         (unauthenticated_missing new_response)).
Proof.
  split; [reflexivity|].
  exact (proj1 (jwtAuth_missing_or_malformed
                  Fixture.jwt_verify Fixture.K 1000 Fixture.no_header
                  new_response (or_introl eq_refl))).
Defined.

Lemma jwtAuth_collapses_failures_witness :
  credential (Fixture.bearer "token-forged") = "Bearer " ++ "token-forged"
  /\ Fixture.jwt_verify 1000 (trim "token-forged") (JWT_SECRET Fixture.K)
     = Throw (Error "JsonWebTokenError" "invalid signature")
  /\ jwtAuth Fixture.jwt_verify Fixture.K 1000
             (Fixture.bearer "token-forged") new_response
     = Normal (Responded (Fixture.bearer "token-forged")
                         (unauthenticated_invalid new_response)).
Proof.
  split; [reflexivity|]. split; [reflexivity|].
  exact (proj1 (jwtAuth_collapses_failures
                  Fixture.jwt_verify Fixture.K 1000
                  (Fixture.bearer "token-forged") new_response
                  "token-forged"
                  (Error "JsonWebTokenError" "invalid signature")
                  eq_refl eq_refl)).
Defined.

(** C5 as stated does not hold: a token that verifies, whose [userId]
    claim is an object with an own [toString] property, is turned away. *)
Lemma verified_token_with_object_subject_is_rejected :
  ~ (forall jwt_verify K now req res rest decoded,
       credential req = "Bearer " ++ rest ->
       jwt_verify now (trim rest) (JWT_SECRET K) = Normal decoded ->
       exists uid,
         String_ (get "userId" decoded) = Normal uid
         /\ jwtAuth jwt_verify K now req res
            = Normal (Next (set_user {| userId := uid;
                                        role := get "role" decoded |} req)
                           res)).
Proof.
  intros H.
  destruct (H Fixture.jwt_verify Fixture.K 1000%Z
              (Fixture.bearer "token-object-userId") new_response
              "token-object-userId" _ eq_refl eq_refl)
    as [uid [Hs _]].
  discriminate Hs.
Qed.

Example object_subject_is_answered_401 :
  jwtAuth Fixture.jwt_verify Fixture.K 1000
          (Fixture.bearer "token-object-userId") new_response
  = Normal (Responded (Fixture.bearer "token-object-userId")
                      (unauthenticated_invalid new_response)).
Proof. reflexivity. Qed.

Lemma jwtAuth_identity_of_verified_token_witness :
  credential (Fixture.bearer "token-A") = "Bearer " ++ "token-A"
  /\ Fixture.jwt_verify 1000 (trim "token-A") (JWT_SECRET Fixture.K)
     = Normal [("userId", JSNumber 7); ("role", JSString "member");
               ("exp", JSNumber 2000)]
  /\ exists rq,
       jwtAuth Fixture.jwt_verify Fixture.K 1000 (Fixture.bearer "token-A")
               new_response = Normal (Next rq new_response)
       /\ user rq = Some {| userId := "7"; role := JSString "member" |}
       /\ headers rq = headers (Fixture.bearer "token-A").
Proof.
  split; [reflexivity|]. split; [reflexivity|].
  exact (proj2 (proj1 (jwtAuth_identity_of_verified_token
                         Fixture.jwt_verify Fixture.K 1000
                         (Fixture.bearer "token-A") new_response "token-A"
                         [("userId", JSNumber 7); ("role", JSString "member");
                          ("exp", JSNumber 2000)]
                         eq_refl eq_refl)
                      "7" eq_refl)).
Defined.

Lemma verification_and_authorization_are_functions_witness :
  jwtAuth Fixture.jwt_verify Fixture.K 1000 (Fixture.bearer "token-A")
          new_response
  = Normal (Next Fixture.identity_A new_response)
  /\ jwtAuth Fixture.jwt_verify Fixture.K 1999 Fixture.stale_A
             (status 204 new_response)
     = Normal (Next Fixture.identity_A (status 204 new_response))
  /\ user Fixture.identity_A = user Fixture.identity_A
  /\ passed (requireRole librarian_only Fixture.identity_A new_response)
     = passed (requireRole librarian_only Fixture.identity_A
                           (status 204 new_response)).
Proof.
  pose proof (verification_and_authorization_are_functions
                Fixture.jwt_verify Fixture.K Scenarios.jwt_verify_stable)
    as [Hverify [Hauthorize _]].
  split; [reflexivity|]. split; [reflexivity|]. split.
  - exact (proj1 (Hverify 1000%Z 1999%Z (Fixture.bearer "token-A")
                          Fixture.stale_A new_response
                          (status 204 new_response)
                          Fixture.identity_A Fixture.identity_A
                          new_response (status 204 new_response)
                          eq_refl eq_refl eq_refl)).
  - exact (Hauthorize librarian_only Fixture.identity_A Fixture.identity_A
                      new_response (status 204 new_response) eq_refl).
Defined.

Lemma default_secret_when_unset_witness :
  lookup "JWT_SECRET" [("PORT", "3211")] = None
  /\ JWT_SECRET (load [("PORT", "3211")]) = "your-secret-key-change-this".
Proof.
  split; [reflexivity|].
  exact (proj1 (default_secret_when_unset [("PORT", "3211")] eq_refl)).
Defined.

(** C8 as stated does not hold: a token that verifies and carries the
    role [admin] is not let through when its [userId] claim is an object
    with an own [toString] property; it is answered 401, not 403. *)
Lemma verified_admin_token_with_object_subject_is_rejected :
  ~ (forall jwt_verify K now req res rest decoded,
       credential req = "Bearer " ++ rest ->
       jwt_verify now (trim rest) (JWT_SECRET K) = Normal decoded ->
       exists rq u,
         jwtAuth jwt_verify K now req res = Normal (Next rq res)
         /\ user rq = Some u
         /\ role u = get "role" decoded).
Proof.
  intros H.
  destruct (H Fixture.jwt_verify Fixture.K 1000%Z
              (Fixture.bearer "token-admin-object-userId") new_response
              "token-admin-object-userId" _ eq_refl eq_refl)
    as [rq [u [Hrq _]]].
  discriminate Hrq.
Qed.

Example admin_with_object_subject_is_answered_401 :
  Fixture.jwt_verify 1000 "token-admin-object-userId" (JWT_SECRET Fixture.K)
  = Normal [("userId", JSObject [("toString", JSNull)]);
            ("role", JSString "admin"); ("exp", JSNumber 2000)]
  /\ handle Fixture.jwt_verify Fixture.operation Fixture.K 1000
            Fixture.get_books (Fixture.bearer "token-admin-object-userId")
     = {| trace := [(StageJwtAuth,
                     Fixture.bearer "token-admin-object-userId")];
          response := unauthenticated_invalid new_response |}.
Proof. split; reflexivity. Qed.

Lemma role_claim_is_not_validated_witness :
  (exists rq u,
     jwtAuth Fixture.jwt_verify Fixture.K 1000 (Fixture.bearer "token-admin")
             new_response = Normal (Next rq new_response)
     /\ user rq = Some u
     /\ role u = JSString "admin"
     /\ userId u = "u1")
  /\ statusCode (response (handle Fixture.jwt_verify Fixture.operation
                                  Fixture.K 1000 Fixture.get_books
                                  (Fixture.bearer "token-admin"))) = 403%Z.
Proof.
  pose proof (role_claim_is_not_validated
                Fixture.jwt_verify Fixture.operation Fixture.K 1000
                (Fixture.bearer "token-admin")) as [Hcopy [_ [Hrefuse _]]].
  split.
  - exact (proj1 (Hcopy new_response "token-admin"
                        [("userId", JSString "u1"); ("role", JSString "admin");
                         ("exp", JSNumber 2000)]
                        "u1" eq_refl eq_refl eq_refl)).
  - refine (proj1 (Hrefuse Fixture.get_books _ new_response
                           {| userId := "u1"; role := JSString "admin" |}
                           (or_introl eq_refl) eq_refl eq_refl _ _));
      discriminate.
Defined.

Lemma jwtAuth_missing_userId_witness :
  hasOwnProperty "userId"
    [("role", JSString "librarian"); ("exp", JSNumber 2000)] = false
  /\ exists rq u,
       jwtAuth Fixture.jwt_verify Fixture.K 1000
               (Fixture.bearer "token-no-userId") new_response
       = Normal (Next rq new_response)
       /\ user rq = Some u
       /\ userId u = "undefined"
       /\ role u = JSString "librarian"
       /\ headers rq = headers (Fixture.bearer "token-no-userId").
Proof.
  split; [reflexivity|].
  exact (proj2 (jwtAuth_missing_userId
                  Fixture.jwt_verify Fixture.K 1000
                  (Fixture.bearer "token-no-userId") new_response
                  "token-no-userId"
                  [("role", JSString "librarian"); ("exp", JSNumber 2000)]
                  eq_refl eq_refl eq_refl)).
Defined.

(** C10 as stated does not hold: [Bearer] followed by a TAB is [Bearer]
    followed by white space only, and it fails the prefix test. *)
Lemma bearer_then_tab_fails_the_prefix_test :
  ~ (forall jwt_verify K now req res ws,
       (forall t secret, exists e, jwt_verify t "" secret = Throw e) ->
       ws <> "" -> blank ws = true ->
       credential req = "Bearer" ++ ws ->
       startsWith (credential req) "Bearer " = true
       /\ jwtAuth jwt_verify K now req res
          = Normal (Responded req (unauthenticated_invalid res))).
Proof.
  intros H.
  destruct (H Fixture.jwt_verify Fixture.K 1000%Z
              (Fixture.with_header ("Bearer" ++ Fixture.TAB)) new_response
              Fixture.TAB) as [Hp _].
  - intros t secret. eexists. reflexivity.
  - discriminate.
  - reflexivity.
  - reflexivity.
  - discriminate Hp.
Qed.

Example bearer_then_tab_is_answered_as_missing :
  jwtAuth Fixture.jwt_verify Fixture.K 1000
          (Fixture.with_header ("Bearer" ++ Fixture.TAB)) new_response
  = Normal (Responded (Fixture.with_header ("Bearer" ++ Fixture.TAB))
                      (unauthenticated_missing new_response)).
Proof. reflexivity. Qed.

Lemma jwtAuth_blank_token_witness :
  blank (" " ++ Fixture.NBSP) = true
  /\ credential (Fixture.with_header ("Bearer  " ++ Fixture.NBSP))
     = "Bearer " ++ (" " ++ Fixture.NBSP)
  /\ Fixture.jwt_verify 1000 "" (JWT_SECRET Fixture.K)
     = Throw (Error "JsonWebTokenError" "jwt must be provided")
  /\ jwtAuth Fixture.jwt_verify Fixture.K 1000
             (Fixture.with_header ("Bearer  " ++ Fixture.NBSP)) new_response
     = Normal (Responded (Fixture.with_header ("Bearer  " ++ Fixture.NBSP))
                         (unauthenticated_invalid new_response)).
Proof.
  split; [reflexivity|]. split; [reflexivity|]. split; [reflexivity|].
  exact (proj1 (proj2 (proj2 (jwtAuth_blank_token
                                Fixture.jwt_verify Fixture.K 1000
                                (Fixture.with_header
                                   ("Bearer  " ++ Fixture.NBSP))
                                new_response (" " ++ Fixture.NBSP)
                                (Error "JsonWebTokenError"
                                       "jwt must be provided")
                                eq_refl eq_refl eq_refl)))).
Defined.

(* ================================================================== *)
(** ** The year in a path: [parseInt] *)

Example parseInt_examples :
  parseInt "1925" = Int 1925 /\ parseInt "  -12abc" = Int (-12)
  /\ parseInt "0x7CD" = Int 1997 /\ parseInt "abc" = NaN
  /\ parseInt "" = NaN /\ parseInt "+7" = Int 7 /\ parseInt "0xg" = NaN
  /\ parseInt "12.5" = Int 12 /\ parseInt "-" = NaN.
Proof. repeat split. Qed.

Lemma of_uint_acc_value (d : Decimal.uint) (p : positive) :
  Z.pos (Pos.of_uint_acc d p) = uint_acc d (Z.pos p).
Proof.
  revert p. induction d; intros p; cbn [Pos.of_uint_acc uint_acc];
    try reflexivity; rewrite IHd; f_equal; lia.
Qed.

Lemma of_uint_value (d : Decimal.uint) :
  Z.of_N (Pos.of_uint d) = uint_acc d 0.
Proof.
  induction d; cbn [Pos.of_uint uint_acc]; try reflexivity;
    try (rewrite IHd; reflexivity);
    cbn [Z.of_N]; rewrite of_uint_acc_value; reflexivity.
Qed.

Lemma to_uint_value (p : positive) : uint_acc (Pos.to_uint p) 0 = Z.pos p.
Proof.
  rewrite <- of_uint_value, DecimalPos.Unsigned.of_to. reflexivity.
Qed.

Lemma digits_stops radix s acc :
  stops radix s = true -> digits radix s acc = acc.
Proof.
  destruct s as [|c s]; cbn [stops digits]; [reflexivity|].
  destruct (digit radix c); [discriminate | reflexivity].
Qed.

Lemma digits_uint (d : Decimal.uint) (suffix : string) (a : Z) :
  stops 10 suffix = true ->
  digits 10 (NilEmpty.string_of_uint d ++ suffix) (Some a)
  = Some (uint_acc d a).
Proof.
  intros Hs. revert a.
  induction d; intros a; cbn [NilEmpty.string_of_uint append uint_acc];
    [apply digits_stops; exact Hs | ..];
    cbn [digits];
    match goal with
    | |- context [digit 10 ?c] =>
        let v := eval vm_compute in (digit 10 c) in
        change (digit 10 c) with v
    end; cbv iota beta; rewrite IHd; do 2 f_equal; lia.
Qed.

(** A numeral with at least one digit, other than the single digit 0
    before an [x], is read in base ten from its first digit on. *)
Lemma digits_numeral (d : Decimal.uint) (suffix : string) :
  d <> Decimal.Nil ->
  (d = Decimal.D0 Decimal.Nil -> starts_with_x suffix = false) ->
  stops 10 suffix = true ->
  let s := NilEmpty.string_of_uint d ++ suffix in
  hex_prefix s = false
  /\ digits 10 s None = Some (uint_acc d 0)
  /\ exists c r, s = String c r
                 /\ isWhiteSpace c = false
                 /\ Ascii.eqb c "-" = false /\ Ascii.eqb c "+" = false.
Proof.
  intros Hnil Hx Hs s. subst s.
  assert (Hrest : forall l a,
            digits 10 (NilEmpty.string_of_uint l ++ suffix) (Some a)
            = Some (uint_acc l a))
    by (intros l a; apply digits_uint; exact Hs).
  assert (Hhex : hex_prefix (NilEmpty.string_of_uint d ++ suffix) = false).
  { destruct d as [|l|l|l|l|l|l|l|l|l|l]; [now elim Hnil | ..];
      cbn [NilEmpty.string_of_uint append hex_prefix];
      try (destruct (_ ++ _); reflexivity).
    destruct l; cbn [NilEmpty.string_of_uint append];
      try reflexivity.
    specialize (Hx eq_refl). destruct suffix as [|c r]; [reflexivity|].
    cbn [starts_with_x] in Hx. rewrite Hx. reflexivity. }
  split; [exact Hhex|]. split.
  - destruct d; [now elim Hnil | ..];
      cbn [NilEmpty.string_of_uint append digits uint_acc];
      match goal with
      | |- context [digit 10 ?c] =>
          let v := eval vm_compute in (digit 10 c) in
          change (digit 10 c) with v
      end; cbv iota beta; rewrite Hrest; reflexivity.
  - destruct d; [now elim Hnil | ..];
      cbn [NilEmpty.string_of_uint append];
      do 2 eexists; (split; [reflexivity|]); repeat split.
Qed.

Lemma parseInt_numeral (d : Decimal.uint) (suffix : string) :
  d <> Decimal.Nil ->
  (d = Decimal.D0 Decimal.Nil -> starts_with_x suffix = false) ->
  stops 10 suffix = true ->
  parseInt (NilEmpty.string_of_uint d ++ suffix) = Int (uint_acc d 0)
  /\ parseInt (String "-" (NilEmpty.string_of_uint d ++ suffix))
     = Int (- uint_acc d 0).
Proof.
  intros Hnil Hx Hs.
  destruct (digits_numeral d suffix Hnil Hx Hs)
    as [Hhex [Hdigits [c [r [Heq [Hws [Hminus Hplus]]]]]]].
  unfold parseInt. split.
  - rewrite Heq in *. cbn [trimStart]. rewrite Hws, Hminus, Hplus.
    cbn [orb]. rewrite Hhex, Hdigits. reflexivity.
  - cbn [trimStart].
    change (isWhiteSpace "-") with false. cbv iota.
    change (Ascii.eqb "-" "-") with true. cbn [orb].
    rewrite Hhex, Hdigits. reflexivity.
Qed.

(** [parseInt] reads back the decimal text of an integer, whatever
    follows it that is no digit. *)
Lemma parseInt_Number_toString (n : Z) (suffix : string) :
  stops 10 suffix = true ->
  (n = 0%Z -> starts_with_x suffix = false) ->
  parseInt (Number_toString n ++ suffix) = Int n.
Proof.
  intros Hs Hx. unfold Number_toString. destruct n as [|p|p].
  - cbn [Z.to_int NilZero.string_of_int NilZero.string_of_uint].
    apply (parseInt_numeral (Decimal.D0 Decimal.Nil) suffix);
      [discriminate | intros _; exact (Hx eq_refl) | exact Hs].
  - cbn [Z.to_int NilZero.string_of_int]. unfold NilZero.string_of_uint.
    pose proof (Unsigned.to_uint_nonnil p) as Hnil.
    pose proof (Unsigned.to_uint_nonzero p) as Hnz.
    destruct (parseInt_numeral (Pos.to_uint p) suffix Hnil) as [H _];
      [intros H0; now elim Hnz | exact Hs |].
    rewrite to_uint_value in H.
    destruct (Pos.to_uint p); [now elim Hnil | exact H ..].
  - cbn [Z.to_int NilZero.string_of_int]. unfold NilZero.string_of_uint.
    pose proof (Unsigned.to_uint_nonnil p) as Hnil.
    pose proof (Unsigned.to_uint_nonzero p) as Hnz.
    destruct (parseInt_numeral (Pos.to_uint p) suffix Hnil) as [_ H];
      [intros H0; now elim Hnz | exact Hs |].
    rewrite to_uint_value in H. cbn [append].
    destruct (Pos.to_uint p); [now elim Hnil | exact H ..].
Qed.

(** X1.  The books-by-year handler asks the store for year [n] whenever
    the path segment is the decimal text of [n], an integer a JavaScript
    number holds exactly, followed or not by anything that does not begin
    with a digit (and, after a lone [0], not with [x] or [X], which would
    make it a base-sixteen numeral). *)
Theorem get_books_by_year_reads_leading_integer (supabase : Supabase)
  (c : Content) (res : Response) (n : Z) (suffix : string) :
  (Z.abs n < 2 ^ 53)%Z ->
  lookup "year" (params c) = Some (Number_toString n ++ suffix) ->
  stops 10 suffix = true ->
  (n = 0%Z -> starts_with_x suffix = false) ->
  get_books_by_year supabase c res
  = list_answer supabase (SelectYear (Int n)) res.
Proof.
  intros _ Hp Hs Hx. unfold get_books_by_year. rewrite Hp.
  cbn [ToString_param]. rewrite (parseInt_Number_toString n suffix Hs Hx).
  reflexivity.
Qed.

Lemma get_books_by_year_reads_leading_integer_witness :
  (Z.abs 1925 < 2 ^ 53)%Z
  /\ lookup "year" (params (Library.of_year "1925abc"))
     = Some (Number_toString 1925 ++ "abc")
  /\ get_books_by_year Library.supabase (Library.of_year "1925abc")
                       new_response
     = list_answer Library.supabase (SelectYear (Int 1925)) new_response.
Proof.
  split; [reflexivity|]. split; [reflexivity|].
  exact (get_books_by_year_reads_leading_integer
           Library.supabase (Library.of_year "1925abc") new_response
           1925 "abc" eq_refl eq_refl eq_refl (fun H => eq_refl)).
Defined.

Lemma parseInt_no_digit (ws rest : string) :
  blank ws = true ->
  match rest with
  | EmptyString => True
  | String c _ =>
      digit 10 c = None /\ isWhiteSpace c = false
      /\ Ascii.eqb c "-" = false /\ Ascii.eqb c "+" = false
  end ->
  parseInt (ws ++ rest) = NaN.
Proof.
  intros Hb Hrest. unfold parseInt.
  assert (Htrim : trimStart (ws ++ rest) = rest).
  { induction ws as [|w ws IH]; cbn [append blank] in *.
    - destruct rest as [|c r]; [reflexivity|].
      cbn [trimStart]. destruct Hrest as [_ [-> _]]. reflexivity.
    - apply andb_true_iff in Hb. destruct Hb as [Hw Hb].
      cbn [trimStart]. rewrite Hw. exact (IH Hb). }
  rewrite Htrim. destruct rest as [|c r]; [reflexivity|].
  destruct Hrest as [Hd [_ [-> ->]]]. cbn [orb].
  assert (Hhex : hex_prefix (String c r) = false).
  { cbn [hex_prefix]. destruct r; [reflexivity|].
    destruct (Ascii.eqb_spec c "0") as [->|]; [discriminate Hd|].
    reflexivity. }
  rewrite Hhex. cbn [digits]. rewrite Hd. reflexivity.
Qed.

(** X2.  A year segment that has no digit where the number should start
    (after leading white space; a sign or a digit would start one) is
    not refused: the handler asks the store for the year [NaN].  An
    absent parameter is read as the text [undefined], with the same
    result. *)
Theorem get_books_by_year_not_a_number (supabase : Supabase) (c : Content)
  (res : Response) :
  (lookup "year" (params c) = None
   \/ exists ws rest,
        lookup "year" (params c) = Some (ws ++ rest)
        /\ blank ws = true
        /\ match rest with
           | EmptyString => True
           | String ch _ =>
               digit 10 ch = None /\ isWhiteSpace ch = false
               /\ Ascii.eqb ch "-" = false /\ Ascii.eqb ch "+" = false
           end) ->
  get_books_by_year supabase c res
  = list_answer supabase (SelectYear NaN) res.
Proof.
  intros [Hnone | [ws [rest [Hp [Hb Hrest]]]]]; unfold get_books_by_year.
  - rewrite Hnone. reflexivity.
  - rewrite Hp. cbn [ToString_param].
    rewrite (parseInt_no_digit ws rest Hb Hrest). reflexivity.
Qed.

Lemma get_books_by_year_not_a_number_witness :
  get_books_by_year Library.supabase (Library.of_year " nineteen")
                    new_response
  = list_answer Library.supabase (SelectYear NaN) new_response.
Proof.
  apply get_books_by_year_not_a_number. right.
  exists " ", "nineteen". repeat split.
Defined.

(* ================================================================== *)
(** ** The statistics *)







(* ================================================================== *)
(** ** Creating, changing, reading and deleting a book *)

Lemma truthy_falsy (v : JSValue) : truthy v = false <-> falsy v.
Proof.
  unfold falsy. split.
  - destruct v as [| |b|n|s| |]; cbn [truthy]; intros H;
      try discriminate; auto.
    + subst b. auto.
    + apply negb_false_iff, Z.eqb_eq in H. subst n. auto.
    + apply negb_false_iff, String.eqb_eq in H. subst s. auto 6.
  - intros [->|[->|[->|[->| ->]]]]; reflexivity.
Qed.

(** The four fields a book is made of. *)
Lemma field_missing_iff (b : Properties) :
  field_missing b = true
  <-> exists f, In f ["title"; "genres"; "authors"; "year"]
                /\ falsy (get f b).
Proof.
  unfold field_missing. rewrite !orb_true_iff, !negb_true_iff.
  rewrite !truthy_falsy. split.
  - intros [[[H|H]|H]|H]; eexists; (split; [|exact H]); cbn; auto.
  - intros [f [Hin H]]. cbn in Hin.
    destruct Hin as [<-|[<-|[<-|[<-|[]]]]]; auto.
Qed.

(** X5.  The create and the change handler answer 400 exactly when
    [req.body] is an object in which one of [title], [genres],
    [authors], [year] is absent or is [null], [false], [0] or the empty
    text; so a book of the year 0 cannot be stored.  The 400 is decided
    before the store is asked: it is the same answer for every store
    and, when changing a book, for every id, existing or not.  When
    [req.body] is [undefined] the destructuring throws and the answer is
    500, again without the store. *)
Theorem book_fields_are_required (supabase : Supabase) (c : Content) :
  let missing :=
    exists b f, req_body c = Some b
                /\ In f ["title"; "genres"; "authors"; "year"]
                /\ falsy (get f b) in
  (statusCode (create_book supabase c new_response) = 400%Z <-> missing)
  /\ (statusCode (update_book supabase c new_response) = 400%Z <-> missing)
  /\ (missing ->
      forall supabase' c',
        req_body c' = req_body c ->
        create_book supabase' c' new_response = fields_required new_response
        /\ update_book supabase' c' new_response
           = fields_required new_response)
  /\ (req_body c = None ->
      forall supabase',
        create_book supabase' c new_response
        = thrown undefined_body new_response
        /\ update_book supabase' c new_response
           = thrown undefined_body new_response
        /\ statusCode (thrown undefined_body new_response) = 500%Z).
Proof.
  intros missing.
  assert (Hmissing : missing
                     <-> exists b, req_body c = Some b
                                   /\ field_missing b = true).
  { unfold missing. split.
    - intros [b [f [Hb H]]]. exists b. split; [exact Hb|].
      apply field_missing_iff. eauto.
    - intros [b [Hb H]]. apply field_missing_iff in H.
      destruct H as [f H]. exists b, f. tauto. }
  rewrite Hmissing. unfold create_book, update_book.
  destruct (req_body c) as [b|] eqn:Hbody.
  - destruct (field_missing b) eqn:Hm.
    + split; [|split; [|split]];
        try (split; [intros _; eauto | intros _; reflexivity]).
      * intros _ supabase' c' ->. rewrite Hm. split; reflexivity.
      * discriminate.
    + assert (Hno : ~ exists b0, Some b = Some b0
                                 /\ field_missing b0 = true).
      { intros [b0 [H H0]]. injection H as <-. congruence. }
      split; [|split; [|split]].
      * split; [|intros H; now elim Hno].
        destruct (single supabase _); cbn; discriminate.
      * split; [|intros H; now elim Hno].
        destruct (single supabase _) as [row|e]; cbn; [discriminate|].
        unfold row_error. destruct (String.eqb _ _); cbn; discriminate.
      * intros H. now elim Hno.
      * discriminate.
  - split; [|split; [|split]].
    + split; [cbn; discriminate | intros [b [H _]]; discriminate].
    + split; [cbn; discriminate | intros [b [H _]]; discriminate].
    + intros [b [H _]]. discriminate.
    + intros _ supabase'. repeat split.
Qed.

Lemma book_fields_are_required_witness :
  (exists b f, req_body Library.year_zero = Some b
               /\ In f ["title"; "genres"; "authors"; "year"]
               /\ falsy (get f b))
  /\ update_book Library.locked Library.year_zero new_response
     = fields_required new_response
  /\ req_body Library.no_body = None
  /\ update_book Library.supabase Library.no_body new_response
     = thrown undefined_body new_response.
Proof.
  assert (H : exists b f, req_body Library.year_zero = Some b
                          /\ In f ["title"; "genres"; "authors"; "year"]
                          /\ falsy (get f b)).
  { eexists. exists "year". split; [reflexivity|]. split; [cbn; auto|].
    right. right. right. left. reflexivity. }
  split; [exact H|]. split.
  - exact (proj2 (proj1 (proj2 (proj2 (book_fields_are_required
                                          Library.supabase
                                          Library.year_zero))) H
                        Library.locked Library.year_zero eq_refl)).
  - split; [reflexivity|].
    exact (proj1 (proj2 (proj2 (proj2 (proj2 (book_fields_are_required
                                                 Library.supabase
                                                 Library.no_body)))
                               eq_refl Library.supabase))).
Defined.

(** X6.  Of the body only [title], [genres], [authors] and [year] reach
    the store: two bodies that agree on the four are created alike, and
    changed alike under the same id, whatever else they hold (an [id],
    say). *)
Theorem only_book_fields_reach_the_store (supabase : Supabase)
  (c c' : Content) (b b' : Properties) (res : Response) :
  req_body c = Some b ->
  req_body c' = Some b' ->
  (forall f, In f ["title"; "genres"; "authors"; "year"] ->
             get f b = get f b') ->
  create_book supabase c res = create_book supabase c' res
  /\ (lookup "id" (params c) = lookup "id" (params c') ->
      update_book supabase c res = update_book supabase c' res).
Proof.
  intros Hb Hb' H. unfold create_book, update_book, field_missing.
  rewrite Hb, Hb'.
  rewrite (H "title"), (H "genres"), (H "authors"), (H "year");
    cbn; auto 6.
  split; [reflexivity|]. intros ->. reflexivity.
Qed.

Lemma only_book_fields_reach_the_store_witness :
  create_book Library.supabase Library.new_book new_response
  = create_book Library.supabase
      {| params := [];
         req_body :=
           Some [("id", JSNumber 1); ("title", JSString "Dubliners");
                 ("genres", JSString "Fiction");
                 ("authors", JSString "James Joyce");
                 ("year", JSNumber 1914)] |}
      new_response.
Proof.
  refine (proj1 (only_book_fields_reach_the_store
                   Library.supabase Library.new_book
                   {| params := [];
                      req_body :=
                        Some [("id", JSNumber 1);
                              ("title", JSString "Dubliners");
                              ("genres", JSString "Fiction");
                              ("authors", JSString "James Joyce");
                              ("year", JSNumber 1914)] |}
                   _ _ new_response eq_refl eq_refl _)).
  intros f [<-|[<-|[<-|[<-|[]]]]]; reflexivity.
Defined.

Lemma row_error_status (e : Postgrest.Error) :
  (Postgrest.code e = "PGRST116"
   /\ row_error e new_response = not_found new_response)
  \/ (Postgrest.code e <> "PGRST116"
      /\ row_error e new_response = server_error e new_response).
Proof.
  unfold row_error. destruct (String.eqb_spec (Postgrest.code e) "PGRST116");
    auto.
Qed.

(** X7.  Reading, changing or deleting one book is answered 404 exactly
    when the store reports, with the code [PGRST116], that no row
    matched (and, when changing, the four fields are there); any other
    failure of the store is answered 500 with the store's message. *)
Theorem not_found_means_no_row (supabase : Supabase) (c : Content) :
  let id := lookup "id" (params c) in
  let no_row q :=
    exists e, single supabase q = Failed e
              /\ Postgrest.code e = "PGRST116" in
  (statusCode (get_book supabase c new_response) = 404%Z
   <-> no_row (SelectById id))
  /\ (statusCode (delete_book supabase c new_response) = 404%Z
      <-> no_row (DeleteBook id))
  /\ (statusCode (update_book supabase c new_response) = 404%Z
      <-> exists b,
            req_body c = Some b
            /\ field_missing b = false
            /\ no_row (UpdateBook id (get "title" b) (get "genres" b)
                                  (get "authors" b) (get "year" b)))
  /\ (forall e,
        Postgrest.code e <> "PGRST116" ->
        (single supabase (SelectById id) = Failed e ->
         get_book supabase c new_response = server_error e new_response)
        /\ (single supabase (DeleteBook id) = Failed e ->
            delete_book supabase c new_response
            = server_error e new_response)).
Proof.
  intros id no_row. subst id no_row.
  unfold get_book, delete_book, update_book. cbv zeta.
  split; [|split; [|split]].
  - destruct (single supabase _) as [row|e].
    + split; [discriminate | intros [e [H _]]; discriminate].
    + destruct (row_error_status e) as [[Hc ->]|[Hc ->]].
      * split; [eauto | reflexivity].
      * split; [discriminate|].
        intros [e' [H Hc']]. injection H as <-. contradiction.
  - destruct (single supabase _) as [row|e].
    + split; [discriminate | intros [e [H _]]; discriminate].
    + destruct (row_error_status e) as [[Hc ->]|[Hc ->]].
      * split; [eauto | reflexivity].
      * split; [discriminate|].
        intros [e' [H Hc']]. injection H as <-. contradiction.
  - destruct (req_body c) as [b|];
      [|split; [discriminate | intros [b [H _]]; discriminate]].
    destruct (field_missing b) eqn:Hm.
    + split; [discriminate|].
      intros [b' [H [H' _]]]. injection H as <-. congruence.
    + destruct (single supabase _) as [row|e] eqn:Hq.
      * split; [discriminate|].
        intros [b' [H [_ [e [H' _]]]]]. injection H as <-.
        rewrite Hq in H'. discriminate.
      * destruct (row_error_status e) as [[Hc ->]|[Hc ->]].
        -- split; [|reflexivity]. intros _. exists b.
           split; [reflexivity|]. split; [exact Hm|]. eauto.
        -- split; [discriminate|].
           intros [b' [H [_ [e' [H' Hc']]]]]. injection H as <-.
           rewrite Hq in H'. injection H' as <-. contradiction.
  - intros e Hc.
    destruct (row_error_status e) as [[Hc' _]|[_ Hrow]]; [contradiction|].
    split; intros ->; exact Hrow.
Qed.

Lemma not_found_means_no_row_witness :
  statusCode (delete_book Library.supabase (Library.book "7") new_response)
  = 404%Z
  /\ get_book Library.locked (Library.book "1") new_response
     = server_error Library.refused new_response.
Proof.
  pose proof (not_found_means_no_row Library.supabase (Library.book "7"))
    as [_ [Hdelete _]].
  pose proof (not_found_means_no_row Library.locked (Library.book "1"))
    as [_ [_ [_ Hother]]].
  split.
  - apply Hdelete. exists Library.no_row. split; reflexivity.
  - apply (Hother Library.refused); [discriminate | reflexivity].
Defined.



(* ================================================================== *)
(** ** The handlers behind the two middleware functions *)

Example every_route_has_its_handler :
  map (fun r => (method r, path r)) routes
  = map (fun e => fst e)
        (registered Library.supabase Library.max_arguments).
Proof. reflexivity. Qed.

Lemma jwtAuth_responded jwt_verify K now req res rq out :
  jwtAuth jwt_verify K now req res = Normal (Responded rq out) ->
  rq = req
  /\ (out = unauthenticated_missing res \/ out = unauthenticated_invalid res).
Proof.
  destruct (startsWith (credential req) "Bearer ") eqn:Hp.
  - apply startsWith_inv in Hp. destruct Hp as [rest Hrest].
    rewrite (jwtAuth_bearer jwt_verify K now req res rest Hrest).
    destruct (jwt_verify _ _ _) as [decoded|].
    + destruct (String_ _); [discriminate|].
      intros H. injection H as <- <-. auto.
    + intros H. injection H as <- <-. auto.
  - rewrite (jwtAuth_no_prefix jwt_verify K now req res Hp).
    intros H. injection H as <- <-. auto.
Qed.

(** A request is turned away by [jwtAuth], turned away by [requireRole],
    or handled. *)
Lemma handle_cases jwt_verify operation K now r req :
  (exists out,
     handle jwt_verify operation K now r req
     = {| trace := [(StageJwtAuth, req)]; response := out |}
     /\ identity_of (jwtAuth jwt_verify K now req new_response) = None
     /\ (out = unauthenticated_missing new_response
         \/ out = unauthenticated_invalid new_response))
  \/ (exists u,
        handle jwt_verify operation K now r req
        = {| trace := [(StageJwtAuth, req);
                       (StageRequireRole, set_user u req)];
             response := forbidden new_response |}
        /\ identity_of (jwtAuth jwt_verify K now req new_response) = Some u
        /\ includes (allowedRoles r) (role u) = false)
  \/ (exists u,
        handle jwt_verify operation K now r req
        = {| trace := [(StageJwtAuth, req);
                       (StageRequireRole, set_user u req);
                       (StageHandler, set_user u req)];
             response := operation r (set_user u req) new_response |}
        /\ identity_of (jwtAuth jwt_verify K now req new_response) = Some u
        /\ includes (allowedRoles r) (role u) = true).
Proof.
  destruct (jwtAuth_total jwt_verify K now req new_response)
    as [[req' res'|rq out] Ho].
  - destruct (jwtAuth_next jwt_verify K now req new_response req' res' Ho)
      as [u [-> ->]].
    right. destruct (includes (allowedRoles r) (role u)) eqn:Hinc.
    + right. exists u. rewrite Ho.
      rewrite (handle_authorized jwt_verify operation K now r req _ _ u
                                 Ho eq_refl Hinc). auto.
    + left. exists u. rewrite Ho.
      rewrite (handle_forbidden jwt_verify operation K now r req _ _ Ho).
      * auto.
      * intros u' Hu'. injection Hu' as <-. exact Hinc.
  - left. exists out.
    rewrite (handle_rejected jwt_verify operation K now r req rq out Ho).
    rewrite Ho.
    destruct (jwtAuth_responded jwt_verify K now req new_response rq out Ho)
      as [_ Hout].
    auto.
Qed.

(** The status a handler can answer with, route by route. *)
Lemma books_operation_status (supabase : Supabase) (max_arguments : nat)
  (c : Content) (r : Route) (rq : Request) :
  In r routes ->
  let out := books_operation supabase max_arguments c r rq new_response in
  finished out = true
  /\ In (statusCode out) [200; 201; 400; 404; 500]%Z
  /\ (statusCode out = 400%Z ->
      (method r = "POST" \/ method r = "PUT")
      /\ allowedRoles r = librarian_only
      /\ out = fields_required new_response
      /\ exists b, req_body c = Some b /\ field_missing b = true).
Proof.
  intros Hr. cbv zeta. cbn in Hr.
  assert (Hlist : forall q,
    finished (list_answer supabase q new_response) = true
    /\ In (statusCode (list_answer supabase q new_response))
          [200; 201; 400; 404; 500]%Z
    /\ statusCode (list_answer supabase q new_response) <> 400%Z).
  { intros q. unfold list_answer.
    destruct (rows supabase q); cbn; intuition (auto; discriminate). }
  assert (Hrow : forall e,
    finished (row_error e new_response) = true
    /\ In (statusCode (row_error e new_response))
          [200; 201; 400; 404; 500]%Z
    /\ statusCode (row_error e new_response) <> 400%Z).
  { intros e. destruct (row_error_status e) as [[_ ->]|[_ ->]]; cbn;
      intuition (auto; discriminate). }
  destruct Hr as [<-|[<-|[<-|[<-|[<-|[<-|[<-|[<-|[<-|[]]]]]]]]]];
    unfold books_operation; cbn [method path allowedRoles];
    match goal with
    | |- context [handler_of ?m ?p ?t] =>
        let h := eval cbv [handler_of registered String.eqb Ascii.eqb
                           Bool.eqb andb] in (handler_of m p t) in
        change (handler_of m p t) with h
    end; cbv iota beta;
    try (unfold get_all_books, get_books_by_genres, get_books_by_year,
           get_books_by_author;
         match goal with
         | |- context [list_answer supabase ?q] =>
             destruct (Hlist q) as [Hf [Hs Hn]]
         end;
         split; [exact Hf|]; split; [exact Hs|];
         intros H; contradiction).
  - unfold get_book. destruct (single supabase _) as [row|e].
    + cbn. intuition (auto; discriminate).
    + destruct (Hrow e) as [Hf [Hs Hn]]. intuition.
  - unfold create_book. destruct (req_body c) as [b|].
    + destruct (field_missing b) eqn:Hm.
      * split; [reflexivity|]. split; [cbn; auto|]. intros _.
        split; [auto|]. split; [reflexivity|]. split; [reflexivity|].
        exists b. auto.
      * destruct (single supabase _); cbn; intuition (auto; discriminate).
    + cbn. intuition (auto; discriminate).
  - unfold update_book. destruct (req_body c) as [b|].
    + destruct (field_missing b) eqn:Hm.
      * split; [reflexivity|]. split; [cbn; auto|]. intros _.
        split; [auto|]. split; [reflexivity|]. split; [reflexivity|].
        exists b. auto.
      * destruct (single supabase _) as [row|e].
        -- cbn. intuition (auto; discriminate).
        -- destruct (Hrow e) as [Hf [Hs Hn]]. intuition.
    + cbn. intuition (auto; discriminate).
  - unfold delete_book. destruct (single supabase _) as [row|e].
    + cbn. intuition (auto; discriminate).
    + destruct (Hrow e) as [Hf [Hs Hn]]. intuition.
  - unfold get_stats. destruct (years supabase _) as [data|e];
      [|cbn; intuition (auto; discriminate)].
    destruct (bind _ _) as [[oldest newest]|e]; cbn;
      intuition (auto; discriminate).
Qed.

Lemma includes_librarian_only (v : JSValue) :
  includes librarian_only v = true -> v = JSString "librarian".
Proof.
  unfold includes, librarian_only. cbn [existsb]. rewrite orb_false_r.
  destruct v; cbn [SameValueZero]; try discriminate.
  intros H. apply String.eqb_eq in H. subst. reflexivity.
Qed.

(** X9.  Once a request has reached one of the nine routes, a 400 from
    the route's functions is the [All fields are required] answer of the
    create or the change handler, given to a body with a missing field,
    and only after both middleware functions let the request through:
    whoever is told by the route that a field is missing carries a
    verified token with the role [librarian]. *)
Theorem missing_fields_are_told_to_librarians_only
  (jwt_verify : Z -> string -> string -> Completion Properties)
  (supabase : Supabase) (max_arguments : nat) (K : Constants) (now : Z)
  (r : Route) (req : Request) (c : Content) :
  In r routes ->
  statusCode
    (response (through_route jwt_verify supabase max_arguments K now r req c))
  = 400%Z ->
  (method r = "POST" \/ method r = "PUT")
  /\ (exists b, req_body c = Some b /\ field_missing b = true)
  /\ response (through_route jwt_verify supabase max_arguments K now r req c)
     = fields_required new_response
  /\ ran StageHandler
         (through_route jwt_verify supabase max_arguments K now r req c)
     = true
  /\ exists rq u,
       jwtAuth jwt_verify K now req new_response
       = Normal (Next rq new_response)
       /\ user rq = Some u
       /\ role u = JSString "librarian".
Proof.
  intros Hr. unfold through_route.
  destruct (handle_cases jwt_verify
              (books_operation supabase max_arguments c) K now r req)
    as [[out [-> [_ [-> | ->]]]] | [[u [-> _]] | [u [-> [Hid Hinc]]]]];
    cbn [response]; try (cbn; discriminate).
  intros H400.
  destruct (books_operation_status supabase max_arguments c r
              (set_user u req) Hr)
    as [_ [_ Hwhy]].
  destruct (Hwhy H400) as [Hm [Hroles [Hout Hmissing]]].
  rewrite Hroles in Hinc.
  split; [exact Hm|]. split; [exact Hmissing|]. split; [exact Hout|].
  split; [reflexivity|].
  destruct (jwtAuth_total jwt_verify K now req new_response)
    as [[rq o|rq o] Ho]; rewrite Ho in Hid; cbn [identity_of] in Hid;
    [|discriminate].
  destruct (jwtAuth_next jwt_verify K now req new_response rq o Ho)
    as [u' [-> ->]].
  exists (set_user u' req), u. split; [exact Ho|]. split; [exact Hid|].
  exact (includes_librarian_only _ Hinc).
Qed.

Lemma missing_fields_are_told_to_librarians_only_witness :
  statusCode
    (response (through_route Library.jwt_verify Library.locked
                             Library.max_arguments Fixture.K 1000
                             Library.put_book
                             (Fixture.bearer "token-librarian")
                             Library.year_zero)) = 400%Z
  /\ exists rq u,
       jwtAuth Library.jwt_verify Fixture.K 1000
               (Fixture.bearer "token-librarian") new_response
       = Normal (Next rq new_response)
       /\ user rq = Some u
       /\ role u = JSString "librarian".
Proof.
  split; [reflexivity|].
  refine (proj2 (proj2 (proj2 (proj2
            (missing_fields_are_told_to_librarians_only
               Library.jwt_verify Library.locked Library.max_arguments
               Fixture.K 1000 Library.put_book
               (Fixture.bearer "token-librarian") Library.year_zero
               _ eq_refl))))).
  do 6 right. left. reflexivity.
Defined.



(* ================================================================== *)
(** ** More on the token and the secret *)







(** X13.  The secret the tokens are verified against is never the empty
    text: a [JWT_SECRET] that is set and not empty is used as it is, and
    one that is set to the empty text is replaced by the built-in
    default, like one that is not set. *)
Theorem secret_is_never_empty (env : ProcessEnv) :
  JWT_SECRET (load env) <> ""
  /\ (forall s, lookup "JWT_SECRET" env = Some s -> s <> "" ->
                JWT_SECRET (load env) = s)
  /\ (lookup "JWT_SECRET" env = Some "" ->
      JWT_SECRET (load env) = "your-secret-key-change-this").
Proof.
  unfold load. cbn [JWT_SECRET]. unfold or_string.
  destruct (lookup "JWT_SECRET" env) as [s|].
  - destruct (String.eqb_spec s "") as [->|Hs].
    + split; [discriminate|]. split; [|reflexivity].
      intros s H. injection H as <-. intros Hne. now elim Hne.
    + split; [exact Hs|]. split; [|intros H; injection H as ->; now elim Hs].
      intros s' H. injection H as <-. reflexivity.
  - split; [discriminate|]. split; discriminate.
Qed.

Lemma secret_is_never_empty_witness :
  lookup "JWT_SECRET" [("JWT_SECRET", "")] = Some ""
  /\ JWT_SECRET (load [("JWT_SECRET", "")]) = "your-secret-key-change-this"
  /\ JWT_SECRET (load [("JWT_SECRET", "s3cret")]) = "s3cret".
Proof.
  split; [reflexivity|]. split.
  - exact (proj2 (proj2 (secret_is_never_empty [("JWT_SECRET", "")]))
                 eq_refl).
  - refine (proj1 (proj2 (secret_is_never_empty [("JWT_SECRET", "s3cret")]))
                  "s3cret" eq_refl _).
    discriminate.
Defined.

(** [String] converts exactly the values that hold no object with an
    own [toString] property. *)
Lemma String_coercible :
  forall v, (exists s, String_ v = Normal s) <-> coercible v = true.
Proof.
  fix IH 1. intros v. destruct v as [| |b|n|s|elements|properties];
    try solve [cbn; split; eauto].
  - cbn [String_ coercible].
    induction elements as [|x rest IHrest].
    + split; eauto.
    + destruct IHrest as [IH1 IH2]. destruct (IH x) as [Hx1 Hx2].
      rewrite andb_true_iff. split.
      * intros [s Hs].
        assert (Hcx : coercible x = true).
        { destruct x; try reflexivity;
            apply Hx1; cbn [bind] in Hs |- *;
            match type of Hs with
            | bind ?e _ = _ => destruct e as [sx|] eqn:He;
                               [eauto | discriminate Hs]
            end. }
        split; [exact Hcx|].
        destruct rest as [|y rest']; [reflexivity|].
        apply IH1.
        match type of Hs with
        | bind ?e _ = _ => destruct e as [sx|]; [|discriminate Hs]
        end.
        cbn [bind] in Hs.
        match type of Hs with
        | bind ?e _ = _ => destruct e as [sr|]; [eauto | discriminate Hs]
        end.
      * intros [Hcx Hcr]. destruct (IH2 Hcr) as [sr Hsr].
        assert (Hex : exists sx,
                  match x with
                  | JSUndefined | JSNull => Normal ""
                  | _ => String_ x
                  end = Normal sx).
        { destruct x; eauto; apply Hx2; exact Hcx. }
        destruct Hex as [sx Hsx]. rewrite Hsx. cbn [bind].
        destruct rest as [|y rest']; [eauto|].
        rewrite Hsr. cbn [bind]. eauto.
  - cbn [String_ coercible].
    destruct (hasOwnProperty "toString" properties); cbn; split; eauto;
      try discriminate.
    intros [s H]. discriminate.
Qed.

(** X14.  A token that verifies is let through exactly when its
    [userId] claim holds no object with an own [toString] property, by
    itself or inside an array; nothing else in the payload matters. *)
Theorem verified_token_passes_iff_subject_converts
  (jwt_verify : Z -> string -> string -> Completion Properties)
  (K : Constants) (now : Z) (req : Request) (res : Response)
  (rest : string) (decoded : Properties) :
  credential req = "Bearer " ++ rest ->
  jwt_verify now (trim rest) (JWT_SECRET K) = Normal decoded ->
  passed (jwtAuth jwt_verify K now req res) = true
  <-> coercible (get "userId" decoded) = true.
Proof.
  intros Hc Hv. rewrite (jwtAuth_bearer jwt_verify K now req res rest Hc), Hv.
  rewrite <- String_coercible.
  destruct (String_ (get "userId" decoded)) as [uid|e]; cbn [passed].
  - split; eauto.
  - split; [discriminate | intros [s H]; discriminate].
Qed.

Lemma verified_token_passes_iff_subject_converts_witness :
  coercible (JSArray [JSNumber 1; JSObject [("toString", JSNull)]]) = false
  /\ coercible (get "userId" (Fixture.claims Library.librarian_token)) = true
  /\ passed (jwtAuth Library.jwt_verify Fixture.K 1000
                     (Fixture.bearer "token-librarian") new_response) = true.
Proof.
  split; [reflexivity|]. split; [reflexivity|].
  exact (proj2 (verified_token_passes_iff_subject_converts
                  Library.jwt_verify Fixture.K 1000
                  (Fixture.bearer "token-librarian") new_response
                  "token-librarian" (Fixture.claims Library.librarian_token)
                  eq_refl eq_refl)
               eq_refl).
Defined.
